(** * machinelearning3.ipynb: the SDSS photometric-redshift and quasar
      classification notebook

    A shallow embedding of the code cells of
    [chunks/machinelearning3.ipynb], the properties of it that the
    specification states, and more properties of the cells.  The notebook's
    kernel is Python 2.7.

    - Numbers are IEEE binary64 floats, as in numpy and pandas: Rocq's
      primitive [float], so every definition below evaluates.
    - A pandas [DataFrame] is a header with a list of labelled rows; a cell
      is a float or a string (an [object] column).
    - Calls into pandas' CSV reader, scikit-learn, matplotlib, seaborn and
      a few built-ins whose result only goes to the display are events of a
      free monad [prog]; a [handler] (the file system, the random generator
      and the libraries, with their own state) answers them with a value or
      with an exception.  The notebook contains no [try], so [prog] has no
      construct that handles an exception.
    - What the notebook computes on its tables and numbers (boolean-mask
      filtering, column deletion, row slices, concatenation, the
      label-to-colour assignment, the mean and the standard error of the
      fold scores, the square root of the linear model's error) is written
      out as Rocq functions.
    - [copy.copy] and [del] are also modelled over a store of mutable
      objects ([Module Store]), where aliasing is visible. *)

From stdpp Require Import base list strings gmap.
From Stdlib Require Import ZArith Floats.PrimFloat.
From Stdlib Require Numbers.Cyclic.Int63.Uint63 Floats.FloatAxioms Floats.SpecFloat.

Set Warnings "-register-all,-inexact-float,-clear-no-such-hyp".
Open Scope string_scope.
Open Scope list_scope.
Open Scope float_scope.

(** ** Python values and exceptions *)

(** One entry of a table or of a numpy array: a float64, or a Python string
    (the entries of an [object] column such as [class]). *)
Inductive cell :=
| Num (x : float)
| Str (s : string).

(** The exceptions of the run.  The notebook defines no exception class and
    has no [raise]: the first five are the built-in ones that names,
    indexing and arithmetic raise, [LibError] is anything raised inside a
    library call (class name and message). *)
Inductive exn :=
| NameError (name : string)
| KeyError (key : string)
| TypeError (msg : string)
| ValueError (msg : string)
| IndexError (msg : string)
| LibError (cls msg : string).

(** The outcome of an operation that may raise. *)
Definition result (A : Type) : Type := exn + A.

Definition ok {A} (a : A) : result A := inr a.
Definition raise {A} (e : exn) : result A := inl e.

#[global] Instance result_ret : MRet result := fun A a => ok a.
#[global] Instance result_bind : MBind result := fun A B f r =>
  match r with
  | inl e => inl e
  | inr a => f a
  end.

(** Applies [f] to the elements from left to right and stops at the first
    exception. *)
Fixpoint traverse {A B} (f : A -> result B) (l : list A) : result (list B) :=
  match l with
  | [] => ok []
  | a :: l' =>
      match f a with
      | inl e => inl e
      | inr b =>
          match traverse f l' with
          | inl e => inl e
          | inr bs => ok (b :: bs)
          end
      end
  end.

(** ** pandas: DataFrame, Series and the operations the notebook uses *)

(** A row: its index label (the [objid], after [index_col=0]) and its cells
    in the order of the header. *)
Definition Row : Type := Z * list cell.

Record DataFrame := mkDataFrame {
  columns : list string;
  rows : list Row
}.

(** A column with the index: what [df[name]] returns. *)
Definition Series : Type := list (Z * cell).

(** Position of the first column called [name]. *)
Fixpoint col_pos (name : string) (cols : list string) : option nat :=
  match cols with
  | [] => None
  | c :: cols' =>
      if String.eqb c name then Some 0%nat
      else match col_pos name cols' with
           | Some j => Some (S j)
           | None => None
           end
  end.

(** pandas shows a missing value as NaN. *)
Definition missing : cell := Num nan.

(** The cell of row [r] under the column [name] of a frame with header
    [cols]. *)
Definition cell_at (cols : list string) (name : string) (r : Row) : cell :=
  match col_pos name cols with
  | Some j => nth j (snd r) missing
  | None => missing
  end.

(** [df[name]]: [KeyError] when there is no such column. *)
Definition getitem (df : DataFrame) (name : string) : result Series :=
  match col_pos name (columns df) with
  | Some j => ok (List.map (fun r : Row => (fst r, nth j (snd r) missing)) (rows df))
  | None => raise (KeyError name)
  end.

(** [series.values] *)
Definition values (s : Series) : list cell := List.map snd s.

(** [c > k] and [c < k] for an entry [c] and a number [k], as Python 2.7
    (the kernel of the notebook) compares them: two floats as IEEE floats,
    so that a comparison with NaN is False; a string comes after every
    number.  (Python 3 raises [TypeError] for a string and a number.) *)
Definition cell_gt (c : cell) (k : float) : bool :=
  match c with
  | Num x => k <? x
  | Str _ => true
  end.

Definition cell_lt (c : cell) (k : float) : bool :=
  match c with
  | Num x => x <? k
  | Str _ => false
  end.

(** [series > k] and [series < k]: elementwise. *)
Definition series_gt (s : Series) (k : float) : list bool :=
  List.map (fun c : Z * cell => cell_gt (snd c) k) s.

Definition series_lt (s : Series) (k : float) : list bool :=
  List.map (fun c : Z * cell => cell_lt (snd c) k) s.

(** [m1 & m2] on two boolean columns of one frame. *)
Fixpoint mask_and (m1 m2 : list bool) : list bool :=
  match m1, m2 with
  | b1 :: m1', b2 :: m2' => (b1 && b2) :: mask_and m1' m2'
  | _, _ => []
  end.

(** The rows whose mask entry is True, in their order. *)
Fixpoint select (mask : list bool) (rs : list Row) : list Row :=
  match mask, rs with
  | b :: mask', r :: rs' => if b then r :: select mask' rs' else select mask' rs'
  | _, _ => []
  end.

(** [df[mask]] for a boolean mask: the header is kept; a mask of another
    length is refused (a mask made from the frame's own columns has its
    length). *)
Definition getitem_mask (df : DataFrame) (mask : list bool) : result DataFrame :=
  if Nat.eqb (length mask) (length (rows df))
  then ok (mkDataFrame (columns df) (select mask (rows df)))
  else raise (ValueError "Item wrong length").

(** [df[:n]]: the first [n] rows. *)
Definition head_rows (n : nat) (df : DataFrame) : DataFrame :=
  mkDataFrame (columns df) (firstn n (rows df)).

(** Removes the entry at position [j]. *)
Fixpoint remove_nth {A} (j : nat) (l : list A) : list A :=
  match l, j with
  | [], _ => []
  | _ :: l', O => l'
  | a :: l', S j' => a :: remove_nth j' l'
  end.

(** What [del df[name]] leaves of a frame: [KeyError] when there is no such
    column. *)
Definition delitem (df : DataFrame) (name : string) : result DataFrame :=
  match col_pos name (columns df) with
  | Some j =>
      ok (mkDataFrame (remove_nth j (columns df))
            (List.map (fun r : Row => (fst r, remove_nth j (snd r))) (rows df)))
  | None => raise (KeyError name)
  end.

(** [df.values]: the cells, row by row. *)
Definition frame_values (df : DataFrame) : list (list cell) :=
  List.map snd (rows df).

(** The header of [a.append(b)]: the columns of [a], then those only [b]
    has. *)
Definition union_columns (a b : list string) : list string :=
  a ++ List.filter (fun c => match col_pos c a with Some _ => false | None => true end) b.

(** A row of a frame with header [from], laid out for the header [to]
    (columns are matched by name; a column the row lacks is NaN). *)
Definition realign (from to : list string) (r : Row) : Row :=
  (fst r, List.map (fun c => cell_at from c r) to).

(** [a.append(b)]: a new frame with the rows of [a] followed by the rows of
    [b], index labels kept. *)
Definition append (a b : DataFrame) : DataFrame :=
  let cols := union_columns (columns a) (columns b) in
  mkDataFrame cols
    (List.map (realign (columns a) cols) (rows a) ++
     List.map (realign (columns b) cols) (rows b)).

(** The cleaning step of both pipelines:
    [df[(df["dered_r"] > -9999) & (df["g_r_color"] > -10) & (df["g_r_color"] < 10)]],
    in Python's order of evaluation. *)
Definition clean (df : DataFrame) : result DataFrame :=
  dered_r ← getitem df "dered_r";
  let m1 := series_gt dered_r (-9999) in
  g_r_color ← getitem df "g_r_color";
  let m2 := series_gt g_r_color (-10) in
  g_r_color' ← getitem df "g_r_color";
  let m3 := series_lt g_r_color' 10 in
  getitem_mask df (mask_and (mask_and m1 m2) m3).

(** [copy.copy(df)]: a new frame with the same header and rows ([Module
    Store] below has the version with object identities). *)
Definition copy_copy (df : DataFrame) : DataFrame :=
  mkDataFrame (columns df) (rows df).

(** ** numpy and scikit-learn arithmetic that the notebook's numbers go through *)

(** [len(a)] as a float64. *)
Definition len_f {A} (a : list A) : float :=
  of_uint63 (Uint63.of_Z (Z.of_nat (length a))).

(** [np.sum]: the elements added from the left, starting from 0.  This is
    how numpy adds up to 7 float64s, as in every sum the properties below
    depend on; it adds longer arrays in blocks, which can change the last
    bits of the result. *)
Definition np_sum (a : list float) : float := fold_left PrimFloat.add a 0.

(** [np.mean]: the sum divided by the number of elements (NaN for an empty
    array). *)
Definition np_mean (a : list float) : float := np_sum a / len_f a.

(** [np.std] with its default [ddof=0]: the root of the mean of the squared
    deviations from the mean. *)
Definition np_std (a : list float) : float :=
  let arrmean := np_mean a in
  let x := List.map (fun v => v - arrmean) a in
  let x := List.map (fun v => v * v) x in
  PrimFloat.sqrt (np_sum x / len_f a).

Definition np_sqrt (x : float) : float := PrimFloat.sqrt x.

(** The entries of a numpy array as floats, for arithmetic on it: a string
    among them makes the arithmetic raise [TypeError]. *)
Definition as_floats (a : list cell) : result (list float) :=
  traverse (fun c =>
    match c with
    | Num x => ok x
    | Str _ => raise (TypeError "unsupported operand type(s) for -: 'str' and 'float'")
    end) a.

(** [((1./len(y))*(y - y.mean())**2).sum()] of cell 18. *)
Definition naive_mse (y_train : list cell) : result float :=
  y ← as_floats y_train;
  let m := np_mean y in
  ok (np_sum (List.map (fun v => (1 / len_f y) * ((v - m) * (v - m))) y)).

(** [a[j]]: [IndexError] past the end. *)
Definition item {A} (a : list A) (j : nat) : result A :=
  match nth_error a j with
  | Some x => ok x
  | None => raise (IndexError "index out of bounds")
  end.

(** [m[:, i]]: column [i] of a 2-d array. *)
Definition column {A} (m : list (list A)) (i : nat) : result (list A) :=
  traverse (fun row => item row i) m.

(** ** Values handed to [print], to the plotting calls and to the display *)

(** A reference to an object that a library made: an estimator, a colour
    map, a plot element. *)
Definition obj : Type := positive.

Inductive pyval :=
| VNone
| VBool (b : bool)
| VInt (z : Z)
| VFloat (x : float)
| VStr (s : string)
| VName (qualified : string)               (* a library constant such as cm.jet_r *)
| VArray (a : list cell)                   (* 1-d ndarray *)
| VMatrix (a : list (list cell))           (* 2-d ndarray *)
| VFrame (df : DataFrame)
| VObj (o : obj)
| VTuple (vs : list pyval)                 (* tuple or list *)
| VDict (d : gmap string pyval)
| VKw (name : string) (v : pyval)          (* a keyword argument *)
| VFormat (fmt : string) (args : list pyval). (* fmt % args *)

Definition VFloats (a : list float) : pyval := VArray (List.map Num a).
Definition VNat (n : nat) : pyval := VInt (Z.of_nat n).

(** [array.shape] of [df.values]. *)
Definition frame_shape (df : DataFrame) : pyval :=
  VTuple [VNat (length (rows df)); VNat (length (columns df))].

Definition matrix : Type := list (list cell).

(** ** Library calls *)

(** The calls the notebook makes into pandas' reader, scikit-learn,
    matplotlib, seaborn and the notebook front end, each with the type of
    what it returns.  A method call has its receiver as first argument. *)
Inductive libE : Type -> Type :=
| ReadCsv (path : string) (index_col : nat) (usecols : list string) : libE DataFrame
| PyPrint (args : list pyval) : libE unit
| Display (v : pyval) : libE unit          (* the value a cell ends with, shown as Out[n] *)
| LibCall (fn : string) (args : list pyval) : libE pyval
| Construct (cls : string) (args : list pyval) : libE obj
| GridSearchCV (estimator : obj) (param_grid : gmap string (list pyval))
    (cv : option Z) (verbose : Z) : libE obj
| TrainTestSplit (X : matrix) (y : list cell) (test_size : option float)
    : libE (matrix * matrix * list cell * list cell)
| Scale (X : matrix) : libE matrix
| Fit (o : obj) (X : matrix) (y : list cell) : libE obj
| Predict (o : obj) (X : matrix) : libE (list cell)
| PredictProba (o : obj) (X : matrix) : libE (list (list float))
| Score (o : obj) (X : matrix) (y : list cell) : libE float
| ValidationCurve (o : obj) (X : matrix) (y : list cell) (param_name : string)
    (param_range : list pyval) (cv : Z) (scoring : string)
    : libE (list (list float) * list (list float))
| CrossValScore (o : obj) (X : matrix) (y : list cell) (cv : Z) (scoring : string)
    : libE (list float)
| BestEstimator (o : obj) : libE obj       (* o.best_estimator_ *)
| Classes (o : obj) : libE (list string)   (* o.classes_ *)
| FeatureImportances (o : obj) : libE (list float)
| GetAttr (o : obj) (name : string) : libE pyval
| MeanSquaredError (y_true y_pred : list cell) : libE float
| RocCurve (y_true : list cell) (y_score : list float) (pos_label : string)
    : libE (list float * list float * list float)
| Auc (x y : list float) : libE float.

(** ** Programs: sequences of library calls with no exception handler *)

Inductive prog (A : Type) : Type :=
| Ret (a : A)
| Throw (e : exn)
| Vis {X : Type} (c : libE X) (k : X -> prog A).

Arguments Ret {A} a.
Arguments Throw {A} e.
Arguments Vis {A X} c k.

Fixpoint bind {A B} (p : prog A) (f : A -> prog B) : prog B :=
  match p with
  | Ret a => f a
  | Throw e => Throw e
  | Vis c k => Vis c (fun x => bind (k x) f)
  end.

#[global] Instance prog_ret : MRet prog := fun A a => Ret a.
#[global] Instance prog_bind : MBind prog := fun A B f p => bind p f.

(** A library call as a program. *)
Definition call {X} (c : libE X) : prog X := Vis c Ret.

(** An operation of the interpreter or of pandas that may raise. *)
Definition lift {A} (r : result A) : prog A :=
  match r with
  | inl e => Throw e
  | inr a => Ret a
  end.

(** What a run leaves behind: each library call with its outcome, and the
    exception an operation of the notebook's own line raised. *)
Inductive entry : Type :=
| Called {X : Type} (c : libE X) (out : result X)
| Raised (e : exn).


(** The world outside the notebook (files, random generator, the state of
    the library objects) answers each call and moves on. *)
Definition handler (world : Type) : Type :=
  forall X : Type, libE X -> world -> result X * world.

(** Runs a program against the world: the log of what happened, the value
    or the exception the run ends with, and the world afterwards. *)
Fixpoint run {world A} (h : handler world) (p : prog A) (w : world)
  : list entry * result A * world :=
  match p with
  | Ret a => ([], ok a, w)
  | Throw e => ([Raised e], raise e, w)
  | Vis c k =>
      match h _ c w with
      | (inl e, w') => ([Called c (inl e)], raise e, w')
      | (inr x, w') =>
          let '(log, r, w'') := run h (k x) w' in
          (Called c (inr x) :: log, r, w'')
      end
  end.

(** ** Small Python and numpy helpers of the cells *)

Definition plt (fn : string) (args : list pyval) : prog pyval :=
  call (LibCall fn args).

Definition print (args : list pyval) : prog unit := call (PyPrint args).

Definition of_cell (c : cell) : pyval :=
  match c with
  | Num x => VFloat x
  | Str s => VStr s
  end.

(** [d[k]] on a dict. *)
Definition dict_get {V} (d : gmap string V) (k : string) : result V :=
  match d !! k with
  | Some v => ok v
  | None => raise (KeyError k)
  end.

Definition is_nan (x : float) : bool := negb (x =? x).

(** [np.minimum] and [np.maximum] of two floats: a NaN wins. *)
Definition np_minimum (a b : float) : float :=
  if (a <? b) || is_nan a then a else b.
Definition np_maximum (a b : float) : float :=
  if (b <? a) || is_nan a then a else b.

(** [a.min()] and [a.max()]: [ValueError] on an empty array. *)
Definition np_min (a : list float) : result float :=
  match a with
  | [] => raise (ValueError "zero-size array to reduction operation minimum which has no identity")
  | x :: a' => ok (fold_left np_minimum a' x)
  end.
Definition np_max (a : list float) : result float :=
  match a with
  | [] => raise (ValueError "zero-size array to reduction operation maximum which has no identity")
  | x :: a' => ok (fold_left np_maximum a' x)
  end.

(** Elementwise [a - b] and [a + b] of two arrays of one length. *)
Fixpoint arr_sub (a b : list float) : list float :=
  match a, b with
  | x :: a', y :: b' => (x - y) :: arr_sub a' b'
  | _, _ => []
  end.
Fixpoint arr_add (a b : list float) : list float :=
  match a, b with
  | x :: a', y :: b' => (x + y) :: arr_add a' b'
  | _, _ => []
  end.

(** [yy[yy == label] = v] on an object array: the entries equal to the
    string [label] become the float [v], the others stay. *)
Definition cell_is (label : string) (c : cell) : bool :=
  match c with
  | Str s => String.eqb s label
  | Num _ => false
  end.
Definition assign_where (label : string) (v : float) (yy : list cell) : list cell :=
  List.map (fun c => if cell_is label c then Num v else c) yy.

(** ** The constants of the cells *)

Definition qso_csv : string := "../examples/SDSScatalog/data/qso10000.csv".
Definition qso_csv' : string := "../examples/SDSSCatalog/data/qso10000.csv".
Definition star_csv : string := "../examples/SDSSCatalog/data/star1000.csv".
Definition galaxy_csv : string := "../examples/SDSSCatalog/data/galaxy1000.csv".

Definition regression_usecols : list string :=
  ["objid"; "dered_r"; "spec_z"; "u_g_color"; "g_r_color"; "r_i_color"; "i_z_color";
   "diff_u"; "diff_g1"; "diff_i"; "diff_z"].

Definition classification_usecols : list string :=
  ["objid"; "dered_r"; "u_g_color"; "g_r_color"; "r_i_color"; "i_z_color"; "diff_u";
   "diff_g1"; "diff_i"; "diff_z"; "class"].

(** [np.array([1,2,4,8,16,32,64])] *)
Definition param_range : list pyval :=
  [VInt 1; VInt 2; VInt 4; VInt 8; VInt 16; VInt 32; VInt 64].

(** The grid of cell 29. *)
Definition param_grid : gmap string (list pyval) :=
  <["n_neighbors" := [VInt 1; VInt 2; VInt 4; VInt 8; VInt 16; VInt 32; VInt 64]]>
  (<["weights" := [VStr "uniform"; VStr "distance"]]>
  (<["p" := [VInt 1; VInt 2]]> ∅)).

(** The grid of cell 65. *)
Definition parameters : gmap string (list pyval) :=
  <["n_estimators" := [VInt 50; VInt 100; VInt 200]]>
  (<["max_features" := [VStr "auto"; VInt 3]]>
  (<["criterion" := [VStr "gini"; VStr "entropy"]]>
  (<["min_samples_leaf" := [VInt 1; VInt 2]]> ∅))).

(** The colours of cell 77. *)
Definition colors : gmap string string :=
  <["QSO" := "red"]> (<["STAR" := "green"]> (<["GALAXY" := "blue"]> ∅)).

(** A dict of lists, as a value. *)
Definition dict_of_lists (d : gmap string (list pyval)) : pyval := VDict (VTuple <$> d).

(** ** The code cells, in the order of the notebook *)


(** Cell 7: read the quasars, clean them, split off the redshift column. *)
Definition cell_7 : prog (DataFrame * Series * DataFrame) :=
  qsos ← call (ReadCsv qso_csv 0 regression_usecols);
  qsos ← lift (clean qsos);
  qso_redshifts ← lift (getitem qsos "spec_z");
  let qso_features := copy_copy qsos in
  qso_features ← lift (delitem qso_features "spec_z");
  call (Display (VFrame (head_rows 5 qso_features)));;
  mret (qsos, qso_redshifts, qso_features).

(** Cell 9: histogram of the redshifts. *)
Definition cell_9 (qso_redshifts : Series) : prog unit :=
  bins ← plt "hist" [VArray (values qso_redshifts); VKw "bins" (VInt 100)];
  plt "xlabel" [VStr "redshift"];;
  label ← plt "ylabel" [VStr "N"];
  call (Display label).

(** Cell 10: scatter matrix of the first 1000 feature rows. *)
Definition cell_10 (qso_redshifts : Series) (qso_features : DataFrame) : prog unit :=
  vmin ← call (LibCall "min" [VArray (values qso_redshifts)]);
  norm ← call (LibCall "mpl.colors.Normalize" [VKw "vmin" vmin; VKw "vmax" (VFloat 2.5)]);
  let cmap := VName "cm.jet_r" in
  m ← call (LibCall "cm.ScalarMappable" [VKw "norm" norm; VKw "cmap" cmap]);
  c ← call (LibCall "to_rgba" [m; VArray (values qso_redshifts)]);
  rez ← call (LibCall "pd.scatter_matrix"
                [VFrame (head_rows 1000 qso_features); VKw "alpha" (VFloat 0.2);
                 VKw "figsize" (VTuple [VInt 15; VInt 15]); VKw "c" c]);
  mret tt.

(** Cells 12 and 13: the design matrix and the target vector. *)
Definition cell_12 (qso_redshifts : Series) (qso_features : DataFrame)
  : prog (matrix * list cell) :=
  let X := frame_values qso_features in
  let y := values qso_redshifts in
  print [VStr "Design matrix shape ="; frame_shape qso_features];;
  print [VStr "Response variable vector shape ="; VTuple [VNat (length y)]];;
  mret (X, y).

(** Cell 15: linear regression on a random split. *)
Definition cell_15 (X : matrix) (y : list cell)
  : prog (list cell * list cell * list cell * float * float) :=
  '(X_train, X_test, y_train, y_test) ← call (TrainTestSplit X y (Some 0.25));
  linear ← call (Construct "linear_model.LinearRegression" []);
  call (Fit linear X_train y_train);;
  y_lr_pred ← call (Predict linear X_test);
  mse ← call (MeanSquaredError y_test y_lr_pred);
  let mse_linear := np_sqrt mse in
  r2_linear ← call (Score linear X_test y_test);
  print [VStr "Linear regression: MSE = "; VFloat mse_linear];;
  print [VStr "R2 score ="; VFloat r2_linear];;
  mret (y_train, y_test, y_lr_pred, mse_linear, r2_linear).

(** The scatter plot of predicted against true redshift of cells 16, 22 and
    44, up to its last call. *)
Definition redshift_plot (zspec zphoto : list cell) (alpha : float) (heading : pyval)
  (ylabel : string) : prog pyval :=
  plt "plot" [VArray zspec; VArray zphoto; VStr "o"; VKw "alpha" (VFloat alpha)];;
  plt "title" [heading; VKw "fontsize" (VInt 18)];;
  plt "xlabel" [VStr "Spectroscopic Redshift"; VKw "fontsize" (VInt 18)];;
  plt "ylabel" [VStr ylabel; VKw "fontsize" (VInt 18)];;
  plt "plot" [VTuple [VInt 0; VInt 7]; VTuple [VInt 0; VInt 7]; VKw "color" (VStr "red")];;
  plt "ylim" [VInt 0; VInt 5].

(** Cell 16 *)
Definition cell_16 (y_test y_lr_pred : list cell) (mse_linear : float) : prog unit :=
  lim ← redshift_plot y_test y_lr_pred 0.2
          (VFormat "Linear Regression - MSE = %.2f" [VFloat mse_linear])
          "Photometric Redshift";
  call (Display lim).

(** Cell 18 *)
Definition cell_18 (y_train : list cell) (mse_linear : float) : prog unit :=
  naive ← lift (naive_mse y_train);
  print [VStr "Naive MSE"; VFloat naive];;
  print [VStr "Linear regression: MSE = "; VFloat mse_linear].

(** Cell 20: k-nearest-neighbours regression on the rescaled features. *)
Definition cell_20 (X : matrix) (y : list cell)
  : prog (matrix * obj * matrix * matrix * list cell * list cell) :=
  X_scaled ← call (Scale X);
  KNN ← call (Construct "neighbors.KNeighborsRegressor" [VInt 5]);
  '(X_train, X_test, y_train, y_test) ← call (TrainTestSplit X_scaled y None);
  fitted ← call (Fit KNN X_train y_train);
  call (Display (VObj fitted));;
  mret (X_scaled, KNN, X_train, X_test, y_train, y_test).

(** Cell 21 *)
Definition cell_21 (KNN : obj) (X_test : matrix) (y_test : list cell)
  (mse_linear r2_linear : float) : prog (list cell * float * float) :=
  y_knn_pred ← call (Predict KNN X_test);
  mse_knn ← call (MeanSquaredError y_test y_knn_pred);
  r2_knn ← call (Score KNN X_test y_test);
  print [VStr "MSE (KNN) ="; VFloat mse_knn];;
  print [VStr "R2 score (KNN) ="; VFloat r2_knn];;
  print [VStr "cf."];;
  print [VStr "MSE (linear regression) = "; VFloat mse_linear];;
  print [VStr "R2 score (linear regression) ="; VFloat r2_linear];;
  mret (y_knn_pred, mse_knn, r2_knn).

(** Cell 22 *)
Definition cell_22 (y_test y_knn_pred : list cell) (mse_knn : float) : prog unit :=
  redshift_plot y_test y_knn_pred 0.2
    (VFormat "k-NN Residuals - MSE = %.2f" [VFloat mse_knn])
    "Photometric Redshift";;
  mret tt.

(** Cell 24: cross-validation scores against the number of neighbours. *)
Definition cell_24 (KNN : obj) (X_scaled : matrix) (y : list cell)
  : prog (list (list float) * list (list float)) :=
  let param_name := "n_neighbors" in
  call (ValidationCurve KNN X_scaled y param_name param_range 3 "r2").

(** Cell 25: the notebook's one function. *)
Definition plot_validation_curve (param_name : string) (parameter_values : list pyval)
  (training_scores validation_scores : list (list float)) : prog pyval :=
  let training_scores_mean := List.map np_mean training_scores in
  let training_scores_std := List.map np_std training_scores in
  let validation_scores_mean := List.map np_mean validation_scores in
  let validation_scores_std := List.map np_std validation_scores in
  plt "plt.fill_between"
    [VTuple parameter_values;
     VFloats (arr_sub training_scores_mean training_scores_std);
     VFloats (arr_add training_scores_mean training_scores_std);
     VKw "alpha" (VFloat 0.1); VKw "color" (VStr "r")];;
  plt "plt.fill_between"
    [VTuple parameter_values;
     VFloats (arr_sub validation_scores_mean validation_scores_std);
     VFloats (arr_add validation_scores_mean validation_scores_std);
     VKw "alpha" (VFloat 0.1); VKw "color" (VStr "g")];;
  plt "plt.plot" [VTuple parameter_values; VFloats training_scores_mean; VStr "o-";
                  VKw "color" (VStr "r"); VKw "label" (VStr "Training R2 score")];;
  plt "plt.plot" [VTuple parameter_values; VFloats validation_scores_mean; VStr "o-";
                  VKw "color" (VStr "g"); VKw "label" (VStr "Cross-validation R2 score")];;
  lo ← lift (np_min validation_scores_mean);
  hi ← lift (np_max training_scores_mean);
  plt "plt.ylim" [VFloat (lo - 0.1); VFloat (hi + 0.1)];;
  plt "plt.xlabel" [VStr param_name; VKw "fontsize" (VInt 18)];;
  plt "plt.legend" [VKw "loc" (VStr "best"); VKw "fontsize" (VInt 18)].

(** Cell 26 *)
Definition cell_26 (training_scores validation_scores : list (list float)) : prog unit :=
  plot_validation_curve "n_neighbors" param_range training_scores validation_scores;;
  mret tt.

(** Cell 29: the hyperparameter grid. *)
Definition cell_29 : prog unit :=
  call (LibCall "np.set_printoptions" [VKw "suppress" (VBool true)]);;
  print [dict_of_lists param_grid].

(** Cell 30: [KNN_tuned = GridSearchCV(KNN, param_grid, verbose=3)]. *)
Definition cell_30 (KNN : obj) : prog obj :=
  call (GridSearchCV KNN param_grid None 3).

(** Cell 32: the grid search runs on the training split. *)
Definition cell_32 (KNN_tuned : obj) (X_train : matrix) (y_train : list cell) : prog unit :=
  fitted ← call (Fit KNN_tuned X_train y_train);
  call (Display (VObj fitted)).

(** Cell 33 *)
Definition cell_33 (KNN_tuned : obj) (X_test : matrix) (y_test : list cell)
  (mse_knn r2_knn : float) : prog unit :=
  y_knn_tuned_pred ← call (Predict KNN_tuned X_test);
  mse_knn_tuned ← call (MeanSquaredError y_test y_knn_tuned_pred);
  r2_knn_tuned ← call (Score KNN_tuned X_test y_test);
  print [VStr "MSE (tuned KNN) ="; VFloat mse_knn_tuned];;
  print [VStr "R2 score (tuned KNN) ="; VFloat r2_knn_tuned];;
  print [VStr "cf."];;
  print [VStr "MSE (KNN) = "; VFloat mse_knn];;
  print [VStr "R2 score (KNN) ="; VFloat r2_knn].

(** Cell 35 *)
Definition cell_35 (KNN_tuned : obj) : prog unit :=
  best_params ← call (GetAttr KNN_tuned "best_params_");
  call (Display best_params).

(** Cell 38: the outer level of cross-validation. *)
Definition cell_38 (KNN_tuned : obj) (X_scaled : matrix) (y : list cell)
  : prog (list float) :=
  call (CrossValScore KNN_tuned X_scaled y 3 "r2").

(** Cell 39: [meanR2, errR2 = np.mean(R2), np.std(R2)/np.sqrt(len(R2))]. *)
Definition mean_and_error (R2 : list float) : float * float :=
  (np_mean R2, np_std R2 / np_sqrt (len_f R2)).

Definition cell_39 (R2 : list float) : prog unit :=
  let '(meanR2, errR2) := mean_and_error R2 in
  print [VStr "Mean score:"; VFloat meanR2; VStr "+/-"; VFloat errR2].

(** Cell 42: the best estimator of the search, fitted on the training
    split. *)
Definition cell_42 (KNN_tuned : obj) (X_train : matrix) (y_train : list cell) : prog obj :=
  KNNz ← call (BestEstimator KNN_tuned);
  fitted ← call (Fit KNNz X_train y_train);
  call (Display (VObj fitted));;
  mret KNNz.

(** Cell 43: one quasar of the test set. *)
Definition cell_43 (KNNz : obj) (X_test : matrix) (y_test : list cell) : prog unit :=
  let j := 571%nat in
  row ← lift (item X_test j);
  let one_new_quasar := [row] in
  zphoto ← call (Predict KNNz one_new_quasar);
  zspec ← lift (item y_test j);
  zphoto0 ← lift (item zphoto 0);
  print [VStr "True redshift cf. KNN photo-z:"; of_cell zspec; VStr " cf."; of_cell zphoto0].

(** Cell 44: the whole test set. *)
Definition cell_44 (KNNz : obj) (X_test : matrix) (y_test : list cell) : prog (list cell) :=
  let zspec := y_test in
  zphoto ← call (Predict KNNz X_test);
  plt "plot" [VArray zspec; VArray zphoto; VStr "o"; VKw "alpha" (VFloat 0.1)];;
  plt "title" [VStr "KNNz performance"; VKw "fontsize" (VInt 18)];;
  plt "xlabel" [VStr "Spectroscopic Redshift"; VKw "fontsize" (VInt 18)];;
  plt "ylabel" [VStr "Photometric redshift"; VKw "fontsize" (VInt 18)];;
  plt "plot" [VTuple [VInt 0; VInt 7]; VTuple [VInt 0; VInt 7]; VKw "color" (VStr "red")];;
  plt "ylim" [VInt 0; VInt 5];;
  mret zphoto.

(** Cell 51: the three catalogues in one table, cleaned; labels and
    features. *)
Definition cell_51 : prog (DataFrame * Series * DataFrame * matrix * list cell) :=
  qso ← call (ReadCsv qso_csv' 0 classification_usecols);
  let all_sources := head_rows 1000 qso in
  star ← call (ReadCsv star_csv 0 classification_usecols);
  let all_sources := append all_sources star in
  galaxy ← call (ReadCsv galaxy_csv 0 classification_usecols);
  let all_sources := append all_sources galaxy in
  all_sources ← lift (clean all_sources);
  all_labels ← lift (getitem all_sources "class");
  let all_features := copy_copy all_sources in
  all_features ← lift (delitem all_features "class");
  let X := frame_values all_features in
  let y := values all_labels in
  mret (all_sources, all_labels, all_features, X, y).

(** Cells 53 and 54 *)
Definition cell_53 (all_features : DataFrame) (X : matrix) (y : list cell) : prog unit :=
  print [VStr "Feature vector shape ="; frame_shape all_features];;
  print [VStr "Class label vector shape ="; VTuple [VNat (length y)]];;
  print [VArray y; VMatrix X].

(** Cell 56, first part: the three assignments to [yy]. *)
Definition label_colors (labels : list cell) : list cell :=
  let yy := labels in
  let yy := assign_where "QSO" 0.0 yy in
  let yy := assign_where "STAR" 0.5 yy in
  let yy := assign_where "GALAXY" 1.0 yy in
  yy.

(** Cell 56 *)
Definition cell_56 (all_labels : Series) (all_features : DataFrame) : prog unit :=
  let yy := label_colors (values all_labels) in
  vmin ← call (LibCall "min" [VArray yy]);
  vmax ← call (LibCall "max" [VArray yy]);
  norm ← call (LibCall "mpl.colors.Normalize" [VKw "vmin" vmin; VKw "vmax" vmax]);
  let cmap := VName "cm.jet_r" in
  m ← call (LibCall "cm.ScalarMappable" [VKw "norm" norm; VKw "cmap" cmap]);
  c ← call (LibCall "to_rgba" [m; VArray yy]);
  rez ← call (LibCall "pd.scatter_matrix"
                [VFrame all_features; VKw "alpha" (VFloat 0.2);
                 VKw "figsize" (VTuple [VInt 15; VInt 15]); VKw "c" c]);
  mret tt.

(** Cell 58 *)
Definition cell_58 (X : matrix) (y : list cell) : prog obj :=
  rf ← call (Construct "RandomForestClassifier"
               [VKw "n_estimators" (VInt 100); VKw "oob_score" (VBool true)]);
  fitted ← call (Fit rf X y);
  call (Display (VObj fitted));;
  mret rf.

(** Python's [zip]. *)
Fixpoint zip_pairs (names : list string) (xs : list float) : list pyval :=
  match names, xs with
  | n :: names', x :: xs' => VTuple [VStr n; VFloat x] :: zip_pairs names' xs'
  | _, _ => []
  end.

(** Cell 60 *)
Definition cell_60 (all_sources : DataFrame) (rf : obj) : prog unit :=
  importances ← call (FeatureImportances rf);
  ranked ← call (LibCall "sorted"
                   [VTuple (zip_pairs (columns all_sources) importances);
                    VKw "key" (VName "lambda q: q[1]"); VKw "reverse" (VBool true)]);
  call (Display ranked).

(** Cell 62 *)
Definition cell_62 (rf : obj) : prog unit :=
  oob ← call (GetAttr rf "oob_score_");
  call (Display oob).

(** Cell 65 *)
Definition cell_65 (X : matrix) (y : list cell)
  : prog (matrix * matrix * list cell * list cell) :=
  call (TrainTestSplit X y (Some 0.25)).

(** Cell 66: grid search over the random forest. *)
Definition cell_66 (rf : obj) (X_train : matrix) (y_train : list cell) : prog obj :=
  rf_tuned ← call (GridSearchCV rf parameters (Some 3%Z) 1);
  RFselector ← call (Fit rf_tuned X_train y_train);
  best_score ← call (GetAttr RFselector "best_score_");
  print [VStr "Best OOB score:"; best_score];;
  best ← call (BestEstimator RFselector);
  print [VObj best];;
  mret RFselector.

(** Cells 69 and 70: predictions and confusion matrix. *)
Definition cell_69 (RFselector : obj) (X_test : matrix) (y_test : list cell) : prog unit :=
  y_pred ← call (Predict RFselector X_test);
  cm ← call (LibCall "confusion_matrix" [VArray y_test; VArray y_pred]);
  plt "plt.matshow" [cm];;
  plt "plt.title" [VStr "Confusion matrix"; VKw "fontsize" (VInt 18)];;
  plt "plt.colorbar" [];;
  plt "plt.ylabel" [VStr "True label"; VKw "fontsize" (VInt 18)];;
  label ← plt "plt.xlabel" [VStr "Predicted label"; VKw "fontsize" (VInt 18)];
  call (Display label).

(** Cell 75: class probabilities of the best forest. *)
Definition cell_75 (RFselector : obj) (X_train X_test : matrix) (y_train : list cell)
  : prog (obj * list (list float)) :=
  BestRFselector ← call (BestEstimator RFselector);
  fitted ← call (Fit BestRFselector X_train y_train);
  y_prob ← call (PredictProba fitted X_test);
  mret (BestRFselector, y_prob).

(** The dictionaries [fpr], [tpr] and [roc_auc] of cell 76. *)
Record roc_dicts := mkRoc {
  fpr : gmap string (list float);
  tpr : gmap string (list float);
  roc_auc : gmap string float
}.

(** The body of [for i,label in enumerate(labels)]. *)
Fixpoint roc_loop (y_test : list cell) (y_prob : list (list float))
  (items : list (nat * string)) (d : roc_dicts) : prog roc_dicts :=
  match items with
  | [] => mret d
  | (i, label) :: items' =>
      y_score ← lift (column y_prob i);
      '(f, t, _) ← call (RocCurve y_test y_score label);
      let d := mkRoc (<[label := f]> (fpr d)) (<[label := t]> (tpr d)) (roc_auc d) in
      f' ← lift (dict_get (fpr d) label);
      t' ← lift (dict_get (tpr d) label);
      a ← call (Auc f' t');
      let d := mkRoc (fpr d) (tpr d) (<[label := a]> (roc_auc d)) in
      roc_loop y_test y_prob items' d
  end.

(** Python's [enumerate]. *)
Definition enumerate {A} (l : list A) : list (nat * A) :=
  combine (seq 0 (length l)) l.

(** Cell 76: one ROC curve per class of the fitted forest. *)
Definition cell_76 (BestRFselector : obj) (y_test : list cell) (y_prob : list (list float))
  : prog (list string * roc_dicts) :=
  labels ← call (Classes BestRFselector);
  d ← roc_loop y_test y_prob (enumerate labels) (mkRoc ∅ ∅ ∅);
  mret (labels, d).

(** The body of [for label in labels] of cell 77. *)
Fixpoint roc_plots (labels : list string) (d : roc_dicts) : prog unit :=
  match labels with
  | [] => mret tt
  | label :: labels' =>
      f ← lift (dict_get (fpr d) label);
      t ← lift (dict_get (tpr d) label);
      color ← lift (dict_get colors label);
      a ← lift (dict_get (roc_auc d) label);
      plt "plot" [VFloats f; VFloats t; VKw "color" (VStr color); VKw "lw" (VInt 2);
                  VKw "label" (VFormat "%s (AUC = %0.3f)" [VStr label; VFloat a])];;
      roc_plots labels' d
  end.

(** Cell 77 *)
Definition cell_77 (labels : list string) (d : roc_dicts) : prog unit :=
  let lw := VInt 2 in
  roc_plots labels d;;
  plt "plot" [VTuple [VInt 0; VInt 1]; VTuple [VInt 0; VInt 1]; VKw "color" (VStr "gray");
              VKw "lw" lw; VKw "linestyle" (VStr "--")];;
  plt "xlim" [VTuple [VFloat 0.0; VFloat 1.0]];;
  plt "ylim" [VTuple [VFloat 0.0; VFloat 1.05]];;
  plt "xlabel" [VStr "False Positive Rate"; VKw "fontsize" (VInt 18)];;
  plt "ylabel" [VStr "True Positive Rate"; VKw "fontsize" (VInt 18)];;
  plt "title" [VStr "RFselector ROC Curve"; VKw "fontsize" (VInt 18)];;
  plt "legend" [VKw "loc" (VStr "lower right"); VKw "fontsize" (VInt 14)];;
  mret tt.

(** ** The two pipelines and the whole notebook, run from top to bottom *)

(** Cells 29 to 44: tuning the k-nearest-neighbours model. *)
Definition tune_knn (KNN : obj) (X_scaled X_train X_test : matrix)
  (y y_train y_test : list cell) (mse_knn r2_knn : float) : prog (list cell) :=
  cell_29;;
  KNN_tuned ← cell_30 KNN;
  cell_32 KNN_tuned X_train y_train;;
  cell_33 KNN_tuned X_test y_test mse_knn r2_knn;;
  cell_35 KNN_tuned;;
  R2 ← cell_38 KNN_tuned X_scaled y;
  cell_39 R2;;
  KNNz ← cell_42 KNN_tuned X_train y_train;
  cell_43 KNNz X_test y_test;;
  cell_44 KNNz X_test y_test.

(** Cells 15 to 22: linear regression and k-nearest neighbours, with their
    printed scores. *)
Definition compare_models (X : matrix) (y : list cell)
  : prog (matrix * obj * matrix * matrix * list cell * list cell * float * float) :=
  '(y_train, y_test, y_lr_pred, mse_linear, r2_linear) ← cell_15 X y;
  cell_16 y_test y_lr_pred mse_linear;;
  cell_18 y_train mse_linear;;
  '(X_scaled, KNN, X_train, X_test, y_train, y_test) ← cell_20 X y;
  '(y_knn_pred, mse_knn, r2_knn) ← cell_21 KNN X_test y_test mse_linear r2_linear;
  cell_22 y_test y_knn_pred mse_knn;;
  mret (X_scaled, KNN, X_train, X_test, y_train, y_test, mse_knn, r2_knn).

Definition regression : prog unit :=
  '(qsos, qso_redshifts, qso_features) ← cell_7;
  cell_9 qso_redshifts;;
  cell_10 qso_redshifts qso_features;;
  '(X, y) ← cell_12 qso_redshifts qso_features;
  '(X_scaled, KNN, X_train, X_test, y_train, y_test, mse_knn, r2_knn) ← compare_models X y;
  '(training_scores, validation_scores) ← cell_24 KNN X_scaled y;
  cell_26 training_scores validation_scores;;
  tune_knn KNN X_scaled X_train X_test y y_train y_test mse_knn r2_knn;;
  mret tt.

Definition classification : prog unit :=
  '(all_sources, all_labels, all_features, X, y) ← cell_51;
  cell_53 all_features X y;;
  cell_56 all_labels all_features;;
  rf ← cell_58 X y;
  cell_60 all_sources rf;;
  cell_62 rf;;
  '(X_train, X_test, y_train, y_test) ← cell_65 X y;
  RFselector ← cell_66 rf X_train y_train;
  cell_69 RFselector X_test y_test;;
  '(BestRFselector, y_prob) ← cell_75 RFselector X_train X_test y_train;
  '(labels, d) ← cell_76 BestRFselector y_test y_prob;
  cell_77 labels d.


(** ** [copy.copy] and [del] over a store of objects *)

Module Store.

(** A Python name holds a reference; the frames live in the store. *)
Abbreviation loc := positive.
Abbreviation heap := (gmap positive DataFrame).

(** A statement: it may change the store and may raise. *)
Definition stmt (A : Type) : Type := heap -> result (A * heap).

#[global] Instance stmt_ret : MRet stmt := fun A a σ => ok (a, σ).
#[global] Instance stmt_bind : MBind stmt := fun A B f m σ =>
  match m σ with
  | inl e => inl e
  | inr (a, σ') => f a σ'
  end.

Definition alloc (df : DataFrame) : stmt loc := fun σ =>
  let l := fresh (dom σ) in ok (l, <[l := df]> σ).

(** The object a name refers to (a name that refers to nothing is not
    defined). *)
Definition read (l : loc) : stmt DataFrame := fun σ =>
  match σ !! l with
  | Some df => ok (df, σ)
  | None => raise (NameError "name is not defined")
  end.

Definition write (l : loc) (df : DataFrame) : stmt unit := fun σ =>
  ok (tt, <[l := df]> σ).

Definition lift_result {A} (r : result A) : stmt A := fun σ =>
  match r with
  | inl e => inl e
  | inr a => ok (a, σ)
  end.

(** [s = df[name]] *)
Definition getitem_at (df : loc) (name : string) : stmt Series :=
  d ← read df; lift_result (getitem d name).

(** [copy.copy(df)]: pandas makes a new object with its own data. *)
Definition copy_at (df : loc) : stmt loc :=
  d ← read df; alloc (copy_copy d).

(** [del df[name]]: the object [df] refers to is changed in place. *)
Definition del_at (df : loc) (name : string) : stmt unit :=
  d ← read df; d' ← lift_result (delitem d name); write df d'.

(** Lines 153-157 with [target = "spec_z"] and lines 916-919 with
    [target = "class"]:
    [t = df[target]; features = copy.copy(df); del features[target]]. *)
Definition split_target (df : loc) (target : string) : stmt (Series * loc) :=
  t ← getitem_at df target;
  features ← copy_at df;
  del_at features target;;
  mret (t, features).

(** The same lines without the copy: [features = df; del features[target]]. *)
Definition split_target_aliased (df : loc) (target : string) : stmt (Series * loc) :=
  t ← getitem_at df target;
  let features := df in
  del_at features target;;
  mret (t, features).

End Store.

(** ** What the specification says, in its words *)

(** A row is kept when its [dered_r] is greater than -9999 and its
    [g_r_color] is strictly between -10 and 10. *)
Definition keeps (cols : list string) (r : Row) : bool :=
  cell_gt (cell_at cols "dered_r" r) (-9999)
  && cell_gt (cell_at cols "g_r_color" r) (-10)
  && cell_lt (cell_at cols "g_r_color" r) 10.


Definition class_labels : list string := ["QSO"; "STAR"; "GALAXY"].

(** The class that a logged call to [roc_curve] took as the positive one. *)
Definition pos_label_of (en : entry) : option string :=
  match en with
  | Called c _ =>
      match c with
      | RocCurve _ _ pos_label => Some pos_label
      | _ => None
      end
  | Raised _ => None
  end.

(** The classes for which a run computed a ROC curve, in that order. *)
Definition roc_labels (log : list entry) : list string := omap pos_label_of log.









(** The exception classes of Python itself. *)
Definition builtin (e : exn) : Prop :=
  match e with
  | LibError _ _ => False
  | _ => True
  end.


(** Every call a program can make satisfies [P], and every exception its own
    operations can raise satisfies [Q], whatever the libraries answer. *)
Inductive prog_all (P : forall X, libE X -> Prop) (Q : exn -> Prop) {A} : prog A -> Prop :=
| all_ret a : prog_all P Q (Ret a)
| all_throw e : Q e -> prog_all P Q (Throw e)
| all_vis X (c : libE X) k :
    P X c -> (forall x, prog_all P Q (k x)) -> prog_all P Q (Vis c k).

(** The range condition of the specification on a row: [dered_r] greater
    than -9999, [g_r_color] greater than -10 and less than 10. *)
Definition in_range (cols : list string) (r : Row) : Prop :=
  cell_gt (cell_at cols "dered_r" r) (-9999) = true /\
  cell_gt (cell_at cols "g_r_color" r) (-10) = true /\
  cell_lt (cell_at cols "g_r_color" r) 10 = true.

(** [cleaned] is [loaded] without the rows out of range: same header, the
    rows in range in their order, and nothing else; for a row with numbers
    in the two columns, in range is the comparison of floats. *)
Definition survivors (loaded cleaned : DataFrame) : Prop :=
  columns cleaned = columns loaded /\
  rows cleaned = List.filter (keeps (columns loaded)) (rows loaded) /\
  (forall r, In r (rows cleaned) <-> In r (rows loaded) /\ in_range (columns loaded) r) /\
  (forall r m c,
      cell_at (columns loaded) "dered_r" r = Num m ->
      cell_at (columns loaded) "g_r_color" r = Num c ->
      In r (rows cleaned) <->
      In r (rows loaded) /\ (-9999 <? m) = true /\ (-10 <? c) = true /\ (c <? 10) = true).





(** ** A small world to run the notebook in *)

Module Demo.

Definition feature_columns : list string :=
  ["dered_r"; "u_g_color"; "g_r_color"; "r_i_color"; "i_z_color"; "diff_u"; "diff_g1";
   "diff_i"; "diff_z"].

(** A catalogue row: the target, then the photometry with the given
    magnitude and colour. *)
Definition source (target : cell) (dered_r g_r_color : float) (objid : nat) : Row :=
  (Z.of_nat objid,
   [target; Num dered_r; Num 0.25; Num g_r_color; Num 0.125; Num 0.5; Num 0.0; Num 0.0;
    Num 0.0; Num 0.0]).

(** [n] good rows, then one with the bad magnitude -9999, one with colour
    10, one with colour -10.5, one with a missing magnitude. *)
Definition catalog (target_column : string) (target : cell) (n : nat) : DataFrame :=
  mkDataFrame (target_column :: feature_columns)
    (List.map (source target 19.5 0.75) (seq 0 n) ++
     [source target (-9999) 0.75 n; source target 19.5 10 (S n);
      source target 19.5 (-10.5) (S (S n)); source target nan 0.75 (S (S (S n)))]).

Definition qso_regression : DataFrame := catalog "spec_z" (Num 1.5) 600.
Definition qso : DataFrame := catalog "class" (Str "QSO") 1200.
Definition star : DataFrame := catalog "class" (Str "STAR") 1001.
Definition galaxy : DataFrame := catalog "class" (Str "GALAXY") 998.

(** What cleaning should leave of these tables. *)
Definition qsos : DataFrame :=
  mkDataFrame (columns qso_regression) (firstn 600 (rows qso_regression)).

Definition loaded : DataFrame := append (append (head_rows 1000 qso) star) galaxy.

Definition all_sources : DataFrame :=
  mkDataFrame (columns qso)
    (firstn 1000 (rows qso) ++ firstn 1001 (rows star) ++ firstn 998 (rows galaxy)).

(** A table of two quasars. *)
Definition two_quasars : DataFrame :=
  mkDataFrame ["dered_r"; "spec_z"; "g_r_color"]
    [(7%Z, [Num 19.5; Num 1.5; Num 0.75]); (8%Z, [Num 20.5; Num 2.5; Num 0.25])].

(** A design matrix and a target vector of 600 samples. *)
Definition X600 : matrix := repeat [Num 0.5; Num 0.25] 600.
Definition y600 : list cell := repeat (Num 1.5) 600.

(** The files of this world. *)
Definition files (path : string) (usecols : list string) : result DataFrame :=
  if String.eqb path qso_csv then ok qso_regression
  else if String.eqb path qso_csv' then ok qso
  else if String.eqb path star_csv then ok star
  else if String.eqb path galaxy_csv then ok galaxy
  else raise (LibError "IOError" path).

(** The libraries of this world: the state is the next object reference.
    Every split has all samples on both sides, every prediction is 1.5,
    every mean squared error 2.25, every score 0.5. *)
Definition libraries : handler positive := fun X c =>
  match c in libE X return positive -> result X * positive with
  | ReadCsv path _ usecols => fun n => (files path usecols, n)
  | PyPrint _ => fun n => (ok tt, n)
  | Display _ => fun n => (ok tt, n)
  | LibCall _ _ => fun n => (ok VNone, n)
  | Construct _ _ => fun n => (ok n, Pos.succ n)
  | GridSearchCV _ _ _ _ => fun n => (ok n, Pos.succ n)
  | TrainTestSplit X y _ => fun n => (ok (X, X, y, y), n)
  | Scale X => fun n => (ok X, n)
  | Fit o _ _ => fun n => (ok o, n)
  | Predict _ X => fun n => (ok (List.map (fun _ => Num 1.5) X), n)
  | PredictProba _ X => fun n => (ok (List.map (fun _ => [0.25; 0.5; 0.25]) X), n)
  | Score _ _ _ => fun n => (ok 0.5, n)
  | ValidationCurve _ _ _ _ param_range _ _ =>
      fun n => (ok (List.map (fun _ => [0.75; 0.5; 1.0]) param_range,
                    List.map (fun _ => [0.5; 0.25; 0.75]) param_range), n)
  | CrossValScore _ _ _ _ _ => fun n => (ok [0.5; 0.25; 0.75], n)
  | BestEstimator _ => fun n => (ok n, Pos.succ n)
  | Classes _ => fun n => (ok ["GALAXY"; "QSO"; "STAR"], n)
  | FeatureImportances _ => fun n => (ok [0.5; 0.125; 0.125; 0.25; 0.0; 0.0; 0.0; 0.0; 0.0], n)
  | GetAttr _ _ => fun n => (ok VNone, n)
  | MeanSquaredError _ _ => fun n => (ok 2.25, n)
  | RocCurve _ _ _ => fun n => (ok ([0.0; 1.0], [0.0; 1.0], [1.0; 0.0]), n)
  | Auc _ _ => fun n => (ok 0.5, n)
  end.


End Demo.

(** ** More of what the cells hand to the libraries *)

(** The named library functions a run called ([plt.plot], [to_rgba], ...),
    in the order of the calls. *)
Definition called_fn (en : entry) : option string :=
  match en with
  | @Called _ (LibCall fn _) _ => Some fn
  | _ => None
  end.

Definition called_fns (log : list entry) : list string := omap called_fn log.

(** What each logged call to [roc_curve] was given: the true labels, the
    scores and the positive class, in the order of the calls. *)
Definition roc_call_of (en : entry) : option (list cell * list float * string) :=
  match en with
  | Called c _ =>
      match c with
      | RocCurve y_true y_score pos_label => Some (y_true, y_score, pos_label)
      | _ => None
      end
  | Raised _ => None
  end.

Definition roc_calls (log : list entry) : list (list cell * list float * string) :=
  omap roc_call_of log.

(** Column [i] of a 2-d array whose rows all have an entry [i]. *)
Definition nth_column (m : list (list float)) (i : nat) : list float :=
  List.map (fun row => nth i row 0) m.

(** The one exception the plotting loop of cell 77 raises itself when the
    dictionaries have an entry for each of [labels]: the [KeyError] of a
    class that has no colour. *)
Definition no_colour (labels : list string) (e : exn) : Prop :=
  exists label, In label labels /\ ~ In label class_labels /\ e = KeyError label.

(** ** More worlds to run cells in *)

Module Sample.

(** Libraries whose classifier has seen a fourth class. *)
Definition four_classes : handler positive := fun X c =>
  match c in libE X return positive -> result X * positive with
  | Classes _ => fun n => (ok ["GALAXY"; "QSO"; "STAR"; "UNKNOWN"], n)
  | other => Demo.libraries _ other
  end.

(** Libraries that find three short catalogues (two good rows and the four
    bad ones each). *)
Definition short_files : handler positive := fun X c =>
  match c in libE X return positive -> result X * positive with
  | ReadCsv path _ _ =>
      fun n =>
        (if String.eqb path qso_csv' then ok (Demo.catalog "class" (Str "QSO") 2)
         else if String.eqb path star_csv then ok (Demo.catalog "class" (Str "STAR") 2)
         else if String.eqb path galaxy_csv then ok (Demo.catalog "class" (Str "GALAXY") 2)
         else raise (LibError "IOError" path), n)
  | other => Demo.libraries _ other
  end.

(** Libraries that find, under every path, a catalogue that has a [class]
    column and no [spec_z]. *)
Definition no_redshift : handler positive := fun X c =>
  match c in libE X return positive -> result X * positive with
  | ReadCsv _ _ _ => fun n => (ok (Demo.catalog "class" (Str "QSO") 2), n)
  | other => Demo.libraries _ other
  end.

(** Libraries for a quick run of the regression pipeline: a catalogue of two
    good rows (and the four bad ones), and splits whose test part has 572
    rows of one feature. *)
Definition short_regression : handler positive := fun X c =>
  match c in libE X return positive -> result X * positive with
  | ReadCsv _ _ _ => fun n => (ok (Demo.catalog "spec_z" (Num 1.5) 2), n)
  | TrainTestSplit X y _ =>
      fun n => (ok (X, repeat [Num 0.5] 572, y, repeat (Num 1.5) 572), n)
  | other => Demo.libraries _ other
  end.

End Sample.


(** * Properties *)

(** ** The result monad and [traverse] *)

Lemma bind_ok {A B} (r : result A) (f : A -> result B) (b : B) :
  r ≫= f = ok b -> exists a, r = ok a /\ f a = ok b.
Proof.
  destruct r as [e | a]; cbn; intros H.
  - discriminate.
  - exists a. split; [reflexivity | exact H].
Qed.

Lemma traverse_raises {A B} (f : A -> result B) (l : list A) (e : exn) :
  traverse f l = inl e -> exists a, In a l /\ f a = inl e.
Proof.
  induction l as [| a l IH]; cbn; intros H.
  - discriminate.
  - destruct (f a) as [e' | b] eqn:Hf.
    + injection H as <-. exists a. split; [left; reflexivity | exact Hf].
    + destruct (traverse f l) as [e' | bs] eqn:Ht; [| discriminate].
      injection H as <-. destruct IH as [a' [Hin Ha']]; [reflexivity |].
      exists a'. split; [right; exact Hin | exact Ha'].
Qed.

(** ** The cleaning step *)

Lemma col_pos_None (name : string) (cols : list string) :
  col_pos name cols = None <-> ~ In name cols.
Proof.
  induction cols as [| c cols IH]; cbn.
  - split; [intros _ [] | reflexivity].
  - destruct (String.eqb_spec c name) as [-> | Hne].
    + split; [discriminate | intros H; exfalso; apply H; left; reflexivity].
    + destruct (col_pos name cols) as [j |].
      * split; [discriminate |]. intros H. exfalso.
        assert (~ In name cols) as H' by (intros Hin; apply H; right; exact Hin).
        apply IH in H'. discriminate.
      * split; [| reflexivity]. intros _ [Heq | Hin]; [contradiction |].
        destruct IH as [IH _]. exact (IH eq_refl Hin).
Qed.

Lemma col_pos_nth (name : string) (cols : list string) (j : nat) :
  col_pos name cols = Some j -> nth_error cols j = Some name.
Proof.
  revert j. induction cols as [| c cols IH]; cbn; intros j H; [discriminate |].
  destruct (String.eqb_spec c name) as [-> | Hne].
  - injection H as <-. reflexivity.
  - destruct (col_pos name cols) as [j' |]; [| discriminate].
    injection H as <-. cbn. apply IH. reflexivity.
Qed.


Lemma getitem_ok (df : DataFrame) (name : string) (s : Series) :
  getitem df name = ok s ->
  exists j, col_pos name (columns df) = Some j /\
            s = List.map (fun r : Row => (fst r, nth j (snd r) missing)) (rows df).
Proof.
  unfold getitem. destruct (col_pos name (columns df)) as [j |]; intros H.
  - injection H as <-. exists j. split; reflexivity.
  - discriminate.
Qed.

Lemma select_map (p : Row -> bool) (rs : list Row) :
  select (List.map p rs) rs = List.filter p rs.
Proof.
  induction rs as [| r rs IH]; cbn; [reflexivity |]. rewrite IH. reflexivity.
Qed.

Lemma mask_and_map {A} (p q : A -> bool) (l : list A) :
  mask_and (List.map p l) (List.map q l) = List.map (fun a => p a && q a) l.
Proof.
  induction l as [| a l IH]; cbn; [reflexivity |]. rewrite IH. reflexivity.
Qed.

(** When the cleaning step returns, it returns the frame with the same
    header and exactly the rows that [keeps] describes, in their order. *)
Lemma clean_ok (df df' : DataFrame) :
  clean df = ok df' ->
  columns df' = columns df /\ rows df' = List.filter (keeps (columns df)) (rows df).
Proof.
  unfold clean. intros H.
  apply bind_ok in H as (s1 & Hs1 & H). apply bind_ok in H as (s2 & Hs2 & H).
  apply bind_ok in H as (s3 & Hs3 & H).
  apply getitem_ok in Hs1 as (j1 & Hj1 & ->).
  apply getitem_ok in Hs2 as (j2 & Hj2 & ->).
  apply getitem_ok in Hs3 as (j3 & Hj3 & ->).
  assert (j3 = j2) as -> by congruence.
  unfold series_gt, series_lt in H. rewrite !List.map_map, !mask_and_map in H. cbn [snd] in H.
  unfold getitem_mask in H. rewrite List.length_map, Nat.eqb_refl in H.
  injection H as <-. cbn [columns rows]. split; [reflexivity |].
  rewrite select_map. apply List.filter_ext. intros r.
  unfold keeps, cell_at. rewrite Hj1, Hj2. reflexivity.
Qed.

(** The cleaning step returns on every frame that has the two columns. *)
Lemma clean_total (df : DataFrame) :
  In "dered_r" (columns df) -> In "g_r_color" (columns df) ->
  exists df', clean df = ok df'.
Proof.
  intros H1 H2.
  destruct (col_pos "dered_r" (columns df)) as [j1 |] eqn:Hj1;
    [| apply col_pos_None in Hj1; contradiction].
  destruct (col_pos "g_r_color" (columns df)) as [j2 |] eqn:Hj2;
    [| apply col_pos_None in Hj2; contradiction].
  unfold clean, getitem. rewrite Hj1, Hj2. cbn.
  unfold getitem_mask, series_gt, series_lt.
  rewrite !List.map_map, !mask_and_map, List.length_map, Nat.eqb_refl.
  eexists. reflexivity.
Qed.

(** ** Running programs *)

Section Running.
Context {world : Type} (h : handler world).

Lemma run_bind {A B} (p : prog A) (f : A -> prog B) (w : world) :
  run h (p ≫= f) w =
  match run h p w with
  | (log, inl e, w') => (log, inl e, w')
  | (log, inr a, w') => let '(log', r, w'') := run h (f a) w' in (log ++ log', r, w'')
  end.
Proof.
  unfold mbind, prog_bind. revert w.
  induction p as [a | e | X c k IH]; intros w; cbn.
  - destruct (run h (f a) w) as [[log' r] w'']. reflexivity.
  - reflexivity.
  - destruct (h X c w) as [[e | x] w']; [reflexivity |].
    rewrite IH. destruct (run h (k x) w') as [[log [e | a]] w'']; [reflexivity |].
    destruct (run h (f a) w'') as [[log' r] w3]. reflexivity.
Qed.

Lemma run_bind_ok {A B} (p : prog A) (f : A -> prog B) (w w2 : world) log (b : B) :
  run h (p ≫= f) w = (log, ok b, w2) ->
  exists a log1 w1 log2,
    run h p w = (log1, ok a, w1) /\ run h (f a) w1 = (log2, ok b, w2) /\
    log = log1 ++ log2.
Proof.
  rewrite run_bind. destruct (run h p w) as [[log1 [e | a]] w1]; [discriminate |].
  destruct (run h (f a) w1) as [[log2 r] w3] eqn:Hf. intros H.
  injection H as <- -> ->. exists a, log1, w1, log2. auto.
Qed.

Lemma run_call_ok {X} (c : libE X) (w w' : world) log (x : X) :
  run h (call c) w = (log, ok x, w') ->
  h X c w = (ok x, w') /\ log = [Called c (ok x)].
Proof.
  unfold call. cbn. destruct (h X c w) as [[e | x'] w1]; [discriminate |].
  intros H. injection H as <- <- <-. auto.
Qed.

Lemma run_lift_ok {A} (r : result A) (w w' : world) log (a : A) :
  run h (lift r) w = (log, ok a, w') -> r = ok a /\ log = [] /\ w' = w.
Proof.
  destruct r as [e | a']; cbn; [discriminate |].
  intros H. injection H as <- <- <-. auto.
Qed.

Lemma run_ret_ok {A} (a b : A) (w w' : world) log :
  run h (mret a) w = (log, ok b, w') -> b = a /\ log = [] /\ w' = w.
Proof. cbn. intros H. injection H as <- <- <-. auto. Qed.

(** A run that makes only calls satisfying [P] logs only such calls. *)
Lemma run_prog_all {A} (P : forall X, libE X -> Prop) (Q : exn -> Prop) (p : prog A) :
  prog_all P Q p ->
  forall w, Forall (fun en =>
              match en with
              | Called c _ => P _ c
              | Raised e => Q e
              end) (run h p w).1.1.
Proof.
  induction 1 as [a | e He | X c k Hc _ IH]; intros w; cbn.
  - constructor.
  - constructor; [exact He | constructor].
  - destruct (h X c w) as [[e | x] w']; cbn.
    + constructor; [exact Hc | constructor].
    + specialize (IH x w'). destruct (run h (k x) w') as [[log r] w'']. cbn in *.
      constructor; [exact Hc | exact IH].
Qed.


End Running.

(** ** Composing [prog_all] *)

Section ProgAll.
Context (P : forall X, libE X -> Prop) (Q : exn -> Prop).

Lemma prog_all_bind {A B} (p : prog A) (f : A -> prog B) :
  prog_all P Q p -> (forall a, prog_all P Q (f a)) -> prog_all P Q (p ≫= f).
Proof.
  intros Hp Hf. unfold mbind, prog_bind.
  induction Hp as [a | e He | X c k Hc _ IH]; cbn.
  - apply Hf.
  - constructor. exact He.
  - constructor; [exact Hc | exact IH].
Qed.

Lemma prog_all_call {X} (c : libE X) : P X c -> prog_all P Q (call c).
Proof. intros Hc. constructor; [exact Hc | intros x; constructor]. Qed.

Lemma prog_all_lift {A} (r : result A) :
  (forall e, r = inl e -> Q e) -> prog_all P Q (lift r).
Proof.
  destruct r as [e | a]; cbn; intros H; constructor. apply H. reflexivity.
Qed.

Lemma prog_all_ret {A} (a : A) : prog_all P Q (mret a : prog A).
Proof. constructor. Qed.

End ProgAll.

(** Takes a successful run apart, call by call. *)
Ltac run_step :=
  match goal with
  | H : run _ (mbind _ _) _ = (_, ok _, _) |- _ =>
      apply run_bind_ok in H as (? & ? & ? & ? & ? & H & ->); cbn beta in H
  | H : run _ (call _) _ = (_, ok _, _) |- _ =>
      apply run_call_ok in H as [? ->]
  | H : run _ (lift _) _ = (_, ok _, _) |- _ =>
      apply run_lift_ok in H as (? & -> & ->)
  | H : run _ (mret _) _ = (_, ok _, _) |- _ =>
      apply run_ret_ok in H as (? & -> & ->)
  | H : run _ (let '(_, _) := ?x in _) _ = _ |- _ => destruct x; cbn iota beta in H
  end.

Ltac run_inv := repeat run_step.


(** Finds the entries of a sublist in a log, in their order. *)
Ltac sublist_log :=
  repeat first [ apply sublist_nil_l
               | apply sublist_skip
               | apply sublist_cons
               | apply sublist_inserts_l
               | progress cbn [app] ].

(** ** The exceptions of the notebook's own operations are Python's *)

Lemma bind_raises {A B} (r : result A) (f : A -> result B) (e : exn) :
  r ≫= f = inl e -> r = inl e \/ exists a, r = ok a /\ f a = inl e.
Proof.
  destruct r as [e' | a]; cbn; intros H.
  - left. injection H as ->. reflexivity.
  - right. exists a. split; [reflexivity | exact H].
Qed.

Create HintDb builtin discriminated.

Lemma builtin_getitem df name e : getitem df name = inl e -> builtin e.
Proof.
  unfold getitem. destruct (col_pos name (columns df)); intros H; [discriminate |].
  injection H as <-. exact I.
Qed.

Lemma builtin_delitem df name e : delitem df name = inl e -> builtin e.
Proof.
  unfold delitem. destruct (col_pos name (columns df)); intros H; [discriminate |].
  injection H as <-. exact I.
Qed.

Lemma builtin_getitem_mask df mask e : getitem_mask df mask = inl e -> builtin e.
Proof.
  unfold getitem_mask. destruct (Nat.eqb _ _); intros H; [discriminate |].
  injection H as <-. exact I.
Qed.

#[global] Hint Resolve builtin_getitem builtin_delitem builtin_getitem_mask : builtin.

(** Follows an exception through the binds of a result. *)
Ltac raises H :=
  repeat match type of H with
  | _ ≫= _ = inl _ =>
      apply bind_raises in H as [H | (? & _ & H)]; [solve [eauto with builtin] |];
      cbn beta in H
  end;
  eauto with builtin.

Lemma builtin_clean df e : clean df = inl e -> builtin e.
Proof. unfold clean. intros H. raises H. Qed.

Lemma builtin_as_floats a e : as_floats a = inl e -> builtin e.
Proof.
  intros H. apply traverse_raises in H as (c & _ & H).
  destruct c as [x | s]; [discriminate |]. injection H as <-. exact I.
Qed.

#[global] Hint Resolve builtin_clean builtin_as_floats : builtin.

Lemma builtin_naive_mse y e : naive_mse y = inl e -> builtin e.
Proof. unfold naive_mse. intros H. raises H. discriminate. Qed.

Lemma builtin_item {A} (a : list A) j e : item a j = inl e -> builtin e.
Proof.
  unfold item. destruct (nth_error a j); intros H; [discriminate |].
  injection H as <-. exact I.
Qed.

Lemma builtin_column {A} (m : list (list A)) i e : column m i = inl e -> builtin e.
Proof.
  intros H. apply traverse_raises in H as (row & _ & H). eapply builtin_item, H.
Qed.

Lemma builtin_dict_get {V} (d : gmap string V) k e : dict_get d k = inl e -> builtin e.
Proof.
  unfold dict_get. destruct (d !! k); intros H; [discriminate |].
  injection H as <-. exact I.
Qed.

Lemma builtin_np_min a e : np_min a = inl e -> builtin e.
Proof. destruct a; intros H; [injection H as <-; exact I | discriminate]. Qed.

Lemma builtin_np_max a e : np_max a = inl e -> builtin e.
Proof. destruct a; intros H; [injection H as <-; exact I | discriminate]. Qed.

#[global] Hint Resolve builtin_naive_mse builtin_item
  builtin_column builtin_dict_get builtin_np_min builtin_np_max : builtin.

(** ** C1: the cleaning step of the two pipelines *)

Lemma keeps_in_range (cols : list string) (r : Row) :
  keeps cols r = true <-> in_range cols r.
Proof. unfold keeps, in_range. rewrite !andb_true_iff. tauto. Qed.

Lemma clean_survivors (df df' : DataFrame) : clean df = ok df' -> survivors df df'.
Proof.
  intros H. apply clean_ok in H as [Hc Hr]. unfold survivors.
  split; [exact Hc |]. split; [exact Hr |].
  assert (forall r, In r (rows df') <-> In r (rows df) /\ in_range (columns df) r) as Hin.
  { intros r. rewrite Hr, filter_In, keeps_in_range. reflexivity. }
  split; [exact Hin |].
  intros r m c Hm Hcol. rewrite Hin. unfold in_range. rewrite Hm, Hcol. reflexivity.
Qed.

Lemma cell_7_cleans {world} (h : handler world) (w w' : world) log qsos qso_redshifts qso_features :
  run h cell_7 w = (log, ok (qsos, qso_redshifts, qso_features), w') ->
  exists raw w1,
    h _ (ReadCsv qso_csv 0 regression_usecols) w = (ok raw, w1) /\ clean raw = ok qsos.
Proof.
  intros H. unfold cell_7 in H. run_inv. simplify_eq. eauto.
Qed.

Lemma cell_51_cleans {world} (h : handler world) (w w' : world) log
    all_sources all_labels all_features X y :
  run h cell_51 w = (log, ok (all_sources, all_labels, all_features, X, y), w') ->
  exists qso star galaxy w1 w2 w3,
    h _ (ReadCsv qso_csv' 0 classification_usecols) w = (ok qso, w1) /\
    h _ (ReadCsv star_csv 0 classification_usecols) w1 = (ok star, w2) /\
    h _ (ReadCsv galaxy_csv 0 classification_usecols) w2 = (ok galaxy, w3) /\
    clean (append (append (head_rows 1000 qso) star) galaxy) = ok all_sources.
Proof.
  intros H. unfold cell_51 in H. run_inv. simplify_eq.
  do 6 eexists. eauto.
Qed.

(** C1.  In the regression pipeline (cell 7) and in the classification
    pipeline (cell 51), whenever the cell runs to its end, the working table
    is what the CSV reader returned (for the classification: the first 1000
    quasar rows, the star rows and the galaxy rows, concatenated) with the
    same header and exactly the rows whose [dered_r] is greater than -9999
    and whose [g_r_color] is strictly between -10 and 10: every such row is
    retained, in its place, and every other row is discarded, among them
    the rows with the magnitude -9999 and those with a missing value in one
    of the two columns. *)
Theorem clean_keeps_rows_in_range {world} (h : handler world) (w : world) :
  (forall log qsos qso_redshifts qso_features w',
      run h cell_7 w = (log, ok (qsos, qso_redshifts, qso_features), w') ->
      exists raw w1,
        h _ (ReadCsv qso_csv 0 regression_usecols) w = (ok raw, w1) /\
        survivors raw qsos) /\
  (forall log all_sources all_labels all_features X y w',
      run h cell_51 w = (log, ok (all_sources, all_labels, all_features, X, y), w') ->
      exists qso star galaxy w1 w2 w3,
        h _ (ReadCsv qso_csv' 0 classification_usecols) w = (ok qso, w1) /\
        h _ (ReadCsv star_csv 0 classification_usecols) w1 = (ok star, w2) /\
        h _ (ReadCsv galaxy_csv 0 classification_usecols) w2 = (ok galaxy, w3) /\
        survivors (append (append (head_rows 1000 qso) star) galaxy) all_sources).
Proof.
  split.
  - intros log qsos s f w' H.
    apply cell_7_cleans in H as (raw & w1 & Hr & Hc).
    exists raw, w1. split; [exact Hr | apply clean_survivors; exact Hc].
  - intros log a l f X y w' H.
    apply cell_51_cleans in H as (q & s & g & w1 & w2 & w3 & Hq & Hs & Hg & Hc).
    exists q, s, g, w1, w2, w3. repeat (split; [assumption |]).
    apply clean_survivors, Hc.
Qed.

Lemma clean_keeps_rows_in_range_witness :
  survivors Demo.qso_regression Demo.qsos /\ survivors Demo.loaded Demo.all_sources.
Proof.
  destruct (clean_keeps_rows_in_range Demo.libraries 1%positive) as [H7 H51]. split.
  - edestruct H7 as (raw & w1 & Hraw & S); [vm_compute; reflexivity |].
    injection Hraw as <- _. vm_compute in S |- *. exact S.
  - edestruct H51 as (q & s & g & w1 & w2 & w3 & Hq & Hs & Hg & S);
      [vm_compute; reflexivity |].
    injection Hq as <- <-. injection Hs as <- <-. injection Hg as <- _.
    vm_compute in S |- *. exact S.
Defined.

(** Only [dered_r] and [g_r_color] are looked at: a row with another colour
    far out of any range stays, and so does, under Python 2's ordering, a
    row whose magnitude is a string. *)
Example other_columns_are_not_examined :
  clean (mkDataFrame ["dered_r"; "u_g_color"; "g_r_color"]
           [(1%Z, [Num 19.5; Num 5000; Num 0.75]);
            (2%Z, [Num (-9999); Num 0.25; Num 0.75]);
            (3%Z, [Str "19.5"; Num 0.25; Num 0.75]);
            (4%Z, [Num 19.5; Num 0.25; Num (-10)])])
  = ok (mkDataFrame ["dered_r"; "u_g_color"; "g_r_color"]
          [(1%Z, [Num 19.5; Num 5000; Num 0.75]);
           (3%Z, [Str "19.5"; Num 0.25; Num 0.75])]).
Proof. reflexivity. Qed.

(** ** C2: the reported generalization score *)

Lemma len_f_3 {A} (a b c : A) : len_f [a; b; c] = 3.
Proof. reflexivity. Qed.

Lemma np_mean_3 (r1 r2 r3 : float) : np_mean [r1; r2; r3] = (0 + r1 + r2 + r3) / 3.
Proof. reflexivity. Qed.

Lemma np_std_3 (r1 r2 r3 : float) :
  let mean := np_mean [r1; r2; r3] in
  np_std [r1; r2; r3] =
  sqrt ((0 + (r1 - mean) * (r1 - mean) + (r2 - mean) * (r2 - mean)
           + (r3 - mean) * (r3 - mean)) / 3).
Proof. reflexivity. Qed.

(** C2.  Cells 38 and 39: when they run to their end, [cross_val_score]
    was called once, with [cv=3] and [scoring='r2'], and what is printed
    after 'Mean score:' is [np.mean] of the vector R2 it returned, and after
    '+/-' is [np.std] of R2 divided by the square root of its length.  For a
    vector of three fold scores these are the arithmetic mean (the sum, from
    the left, divided by 3) and the root of the mean squared deviation from
    it, divided by the root of 3. *)
Theorem mean_score_is_mean_of_fold_scores {world} (h : handler world) (w w' : world)
    (KNN_tuned : obj) (X_scaled : matrix) (y : list cell) (log : list entry) :
  run h (R2 ← cell_38 KNN_tuned X_scaled y; cell_39 R2) w = (log, ok tt, w') ->
  exists R2 w1,
    h _ (CrossValScore KNN_tuned X_scaled y 3 "r2") w = (ok R2, w1) /\
    log = [Called (CrossValScore KNN_tuned X_scaled y 3 "r2") (ok R2);
           Called (PyPrint [VStr "Mean score:"; VFloat (np_mean R2); VStr "+/-";
                            VFloat (np_std R2 / np_sqrt (len_f R2))]) (ok tt)] /\
    forall r1 r2 r3, R2 = [r1; r2; r3] ->
      let mean := (0 + r1 + r2 + r3) / 3 in
      np_mean R2 = mean /\
      np_std R2 = sqrt ((0 + (r1 - mean) * (r1 - mean) + (r2 - mean) * (r2 - mean)
                           + (r3 - mean) * (r3 - mean)) / 3) /\
      np_sqrt (len_f R2) = sqrt 3.
Proof.
  intros H. unfold cell_38, cell_39, mean_and_error, print in H. run_inv.
  eexists _, _. split; [eassumption |]. split; [reflexivity |].
  intros r1 r2 r3 ->. cbv zeta. split; [apply np_mean_3 |].
  split; [apply np_std_3 | reflexivity].
Qed.

Lemma mean_score_is_mean_of_fold_scores_witness :
  exists R2 : list float,
    R2 = [0.5; 0.25; 0.75] /\ np_mean R2 = 0.5 /\
    np_std R2 = sqrt (0.125 / 3) /\ np_sqrt (len_f R2) = sqrt 3.
Proof.
  edestruct (mean_score_is_mean_of_fold_scores Demo.libraries 1%positive 1%positive
               1%positive [] []) as (R2 & w1 & Hcv & _ & H3);
    [vm_compute; reflexivity |].
  injection Hcv as <- _. exists [0.5; 0.25; 0.75]. split; [reflexivity |].
  destruct (H3 _ _ _ eq_refl) as (Hm & Hs & Hl).
  split; [rewrite Hm; reflexivity |]. split; [rewrite Hs; reflexivity | exact Hl].
Defined.

(** ** C4: the two error measures that are printed under the name MSE *)

Lemma cell_15_ok {world} (h : handler world) (w w' : world) X y log
    y_train y_test y_lr_pred mse_linear r2_linear :
  run h (cell_15 X y) w = (log, ok (y_train, y_test, y_lr_pred, mse_linear, r2_linear), w') ->
  exists X_train X_test linear fitted mse,
    log = [Called (TrainTestSplit X y (Some 0.25)) (ok (X_train, X_test, y_train, y_test));
           Called (Construct "linear_model.LinearRegression" []) (ok linear);
           Called (Fit linear X_train y_train) (ok fitted);
           Called (Predict linear X_test) (ok y_lr_pred);
           Called (MeanSquaredError y_test y_lr_pred) (ok mse);
           Called (Score linear X_test y_test) (ok r2_linear);
           Called (PyPrint [VStr "Linear regression: MSE = "; VFloat mse_linear]) (ok tt);
           Called (PyPrint [VStr "R2 score ="; VFloat r2_linear]) (ok tt)] /\
    mse_linear = PrimFloat.sqrt mse.
Proof.
  intros H. unfold cell_15, print in H. run_inv. simplify_eq.
  repeat match goal with x : unit |- _ => destruct x end.
  eexists _, _, _, _, _. split; reflexivity.
Qed.

Lemma cell_21_ok {world} (h : handler world) (w w' : world) KNN X_test y_test
    mse_linear r2_linear log y_knn_pred mse_knn r2_knn :
  run h (cell_21 KNN X_test y_test mse_linear r2_linear) w
    = (log, ok (y_knn_pred, mse_knn, r2_knn), w') ->
  log = [Called (Predict KNN X_test) (ok y_knn_pred);
         Called (MeanSquaredError y_test y_knn_pred) (ok mse_knn);
         Called (Score KNN X_test y_test) (ok r2_knn);
         Called (PyPrint [VStr "MSE (KNN) ="; VFloat mse_knn]) (ok tt);
         Called (PyPrint [VStr "R2 score (KNN) ="; VFloat r2_knn]) (ok tt);
         Called (PyPrint [VStr "cf."]) (ok tt);
         Called (PyPrint [VStr "MSE (linear regression) = "; VFloat mse_linear]) (ok tt);
         Called (PyPrint [VStr "R2 score (linear regression) ="; VFloat r2_linear]) (ok tt)].
Proof.
  intros H. unfold cell_21, print in H. run_inv. simplify_eq.
  repeat match goal with x : unit |- _ => destruct x end.
  reflexivity.
Qed.

Lemma cell_20_ok {world} (h : handler world) (w w' : world) X y log
    X_scaled KNN X_train X_test y_train y_test :
  run h (cell_20 X y) w = (log, ok (X_scaled, KNN, X_train, X_test, y_train, y_test), w') ->
  exists fitted,
    log = [Called (Scale X) (ok X_scaled);
           Called (Construct "neighbors.KNeighborsRegressor" [VInt 5]) (ok KNN);
           Called (TrainTestSplit X_scaled y None) (ok (X_train, X_test, y_train, y_test));
           Called (Fit KNN X_train y_train) (ok fitted);
           Called (Display (VObj fitted)) (ok tt)].
Proof.
  intros H. unfold cell_20 in H. run_inv. simplify_eq.
  repeat match goal with x : unit |- _ => destruct x end.
  eexists. reflexivity.
Qed.

Lemma sqrt_differs : np_sqrt 2.25 = 1.5 /\ np_sqrt 2.25 <> 2.25.
Proof.
  split; [reflexivity |]. intros H.
  assert (PrimFloat.eqb (np_sqrt 2.25) 2.25 = true) as E by (rewrite H; reflexivity).
  vm_compute in E. discriminate.
Qed.

(** C4.  Cells 15 to 22, when they run to their end: the number printed
    after 'Linear regression: MSE = ', and again after
    'MSE (linear regression) = ' next to the k-NN one, is the square root of
    what [mean_squared_error] returned for the test targets and the linear
    predictions on the test split, while the number printed after
    'MSE (KNN) =' is what [mean_squared_error] returned for the test targets
    and the k-NN predictions, with no root.  The two are different measures:
    for a mean squared error of 2.25 the first prints 1.5 and the second
    2.25. *)
Theorem mse_labels_print_two_different_measures {world} (h : handler world) (w w' : world)
    (X : matrix) (y : list cell) (log : list entry)
    (r : matrix * obj * matrix * matrix * list cell * list cell * float * float) :
  run h (compare_models X y) w = (log, ok r, w') ->
  (exists linear X_train X_test y_train y_test y_lr_pred mse_lr
          X_scaled KNN X_train' X_test' y_train' y_test' y_knn_pred mse_knn,
      sublist
        [Called (TrainTestSplit X y (Some 0.25)) (ok (X_train, X_test, y_train, y_test));
         Called (Predict linear X_test) (ok y_lr_pred);
         Called (MeanSquaredError y_test y_lr_pred) (ok mse_lr);
         Called (PyPrint [VStr "Linear regression: MSE = "; VFloat (np_sqrt mse_lr)]) (ok tt);
         Called (TrainTestSplit X_scaled y None) (ok (X_train', X_test', y_train', y_test'));
         Called (Predict KNN X_test') (ok y_knn_pred);
         Called (MeanSquaredError y_test' y_knn_pred) (ok mse_knn);
         Called (PyPrint [VStr "MSE (KNN) ="; VFloat mse_knn]) (ok tt);
         Called (PyPrint [VStr "MSE (linear regression) = "; VFloat (np_sqrt mse_lr)]) (ok tt)]
        log) /\
  np_sqrt 2.25 = 1.5 /\ np_sqrt 2.25 <> 2.25.
Proof.
  intros H. split; [| exact sqrt_differs].
  unfold compare_models in H. run_inv. simplify_eq.
  match goal with H : run _ (cell_15 _ _) _ = _ |- _ =>
    apply cell_15_ok in H as (X_train & X_test & linear & fitted & mse & -> & ->) end.
  match goal with H : run _ (cell_20 _ _) _ = _ |- _ =>
    apply cell_20_ok in H as (fitted' & ->) end.
  match goal with H : run _ (cell_21 _ _ _ _ _) _ = _ |- _ =>
    apply cell_21_ok in H as -> end.
  eexists linear, X_train, X_test, _, _, _, mse, _, _, _, _, _, _, _, _.
  unfold np_sqrt. sublist_log.
Qed.

Lemma mse_labels_print_two_different_measures_witness :
  exists (y_test y_lr_pred y_test' y_knn_pred : list cell) (mse_lr mse_knn : float),
    sublist
      [Called (MeanSquaredError y_test y_lr_pred) (ok mse_lr);
       Called (PyPrint [VStr "Linear regression: MSE = "; VFloat (np_sqrt mse_lr)]) (ok tt);
       Called (MeanSquaredError y_test' y_knn_pred) (ok mse_knn);
       Called (PyPrint [VStr "MSE (KNN) ="; VFloat mse_knn]) (ok tt);
       Called (PyPrint [VStr "MSE (linear regression) = "; VFloat (np_sqrt mse_lr)]) (ok tt)]
      (run Demo.libraries (compare_models [[Num 1]] [Num 3]) 1%positive).1.1.
Proof.
  edestruct (fun w' => mse_labels_print_two_different_measures Demo.libraries
                         1%positive w' [[Num 1]] [Num 3])
    as [(linear & X_train & X_test & y_train & y_test & y_lr_pred & mse_lr & X_scaled
         & KNN & X_train' & X_test' & y_train' & y_test' & y_knn_pred & mse_knn & Hsub) _];
    [vm_compute; reflexivity |].
  exists y_test, y_lr_pred, y_test', y_knn_pred, mse_lr, mse_knn.
  etrans; [| exact Hsub]. sublist_log.
Defined.

Example demo_prints_two_measures :
  sublist
    [Called (MeanSquaredError [Num 3] [Num 1.5]) (ok 2.25);
     Called (PyPrint [VStr "Linear regression: MSE = "; VFloat 1.5]) (ok tt);
     Called (MeanSquaredError [Num 3] [Num 1.5]) (ok 2.25);
     Called (PyPrint [VStr "MSE (KNN) ="; VFloat 2.25]) (ok tt);
     Called (PyPrint [VStr "MSE (linear regression) = "; VFloat 1.5]) (ok tt)]
    (run Demo.libraries (compare_models [[Num 1]] [Num 3]) 1%positive).1.1.
Proof. vm_compute. sublist_log. Qed.

(** ** C5: the grid search and the use of its best estimator *)

Lemma cell_30_ok {world} (h : handler world) (w w' : world) KNN log KNN_tuned :
  run h (cell_30 KNN) w = (log, ok KNN_tuned, w') ->
  log = [Called (GridSearchCV KNN param_grid None 3) (ok KNN_tuned)].
Proof. intros H. unfold cell_30 in H. run_inv. reflexivity. Qed.

Lemma cell_32_ok {world} (h : handler world) (w w' : world) KNN_tuned X_train y_train log u :
  run h (cell_32 KNN_tuned X_train y_train) w = (log, ok u, w') ->
  exists fitted,
    log = [Called (Fit KNN_tuned X_train y_train) (ok fitted);
           Called (Display (VObj fitted)) (ok tt)].
Proof.
  intros H. unfold cell_32 in H. run_inv. destruct u. eexists. reflexivity.
Qed.

Lemma cell_42_ok {world} (h : handler world) (w w' : world) KNN_tuned X_train y_train log KNNz :
  run h (cell_42 KNN_tuned X_train y_train) w = (log, ok KNNz, w') ->
  exists fitted,
    log = [Called (BestEstimator KNN_tuned) (ok KNNz);
           Called (Fit KNNz X_train y_train) (ok fitted);
           Called (Display (VObj fitted)) (ok tt)].
Proof.
  intros H. unfold cell_42 in H. run_inv. simplify_eq.
  repeat match goal with x : unit |- _ => destruct x end.
  eexists. reflexivity.
Qed.

Lemma cell_44_ok {world} (h : handler world) (w w' : world) KNNz X_test y_test log zphoto :
  run h (cell_44 KNNz X_test y_test) w = (log, ok zphoto, w') ->
  exists rest, log = Called (Predict KNNz X_test) (ok zphoto) :: rest.
Proof.
  intros H. unfold cell_44 in H. run_inv. simplify_eq. eexists. reflexivity.
Qed.

Lemma param_grid_lookup (name : string) (vs : list pyval) :
  param_grid !! name = Some vs <->
  name = "n_neighbors" /\ vs = [VInt 1; VInt 2; VInt 4; VInt 8; VInt 16; VInt 32; VInt 64] \/
  name = "weights" /\ vs = [VStr "uniform"; VStr "distance"] \/
  name = "p" /\ vs = [VInt 1; VInt 2].
Proof.
  unfold param_grid. rewrite !lookup_insert_Some, lookup_empty. split.
  - intros [[<- <-] | [_ [[<- <-] | [_ [[<- <-] | [_ H]]]]]]; auto. discriminate.
  - intros [[-> ->] | [[-> ->] | [-> ->]]]; [left; auto | right | right].
    + split; [discriminate |]. left. auto.
    + split; [discriminate |]. right. split; [discriminate |]. left. auto.
Qed.

(** C5.  Cells 29 to 44, when they run to their end: the k-nearest
    neighbours regressor [KNN] is handed to one [GridSearchCV] together with
    the grid that has exactly the three keys n_neighbors, weights and p with
    the values 1, 2, 4, 8, 16, 32, 64; 'uniform', 'distance'; and 1, 2; that
    search is fitted on the training split; its [best_estimator_] is then
    fitted on the same training split, and it is this estimator whose
    predictions on the test split are the photometric redshifts. *)
Theorem best_knn_of_the_grid_predicts_the_test_set {world} (h : handler world) (w w' : world)
    (KNN : obj) (X_scaled X_train X_test : matrix) (y y_train y_test : list cell)
    (mse_knn r2_knn : float) (log : list entry) (zphoto : list cell) :
  run h (tune_knn KNN X_scaled X_train X_test y y_train y_test mse_knn r2_knn) w
    = (log, ok zphoto, w') ->
  (exists KNN_tuned fitted KNNz fitted',
      sublist
        [Called (GridSearchCV KNN param_grid None 3) (ok KNN_tuned);
         Called (Fit KNN_tuned X_train y_train) (ok fitted);
         Called (BestEstimator KNN_tuned) (ok KNNz);
         Called (Fit KNNz X_train y_train) (ok fitted');
         Called (Predict KNNz X_test) (ok zphoto)] log) /\
  (forall name vs,
      param_grid !! name = Some vs <->
      name = "n_neighbors"
        /\ vs = [VInt 1; VInt 2; VInt 4; VInt 8; VInt 16; VInt 32; VInt 64] \/
      name = "weights" /\ vs = [VStr "uniform"; VStr "distance"] \/
      name = "p" /\ vs = [VInt 1; VInt 2]).
Proof.
  intros H. split; [| exact param_grid_lookup].
  unfold tune_knn in H. run_inv.
  match goal with H : run _ (cell_30 _) _ = _ |- _ => apply cell_30_ok in H as -> end.
  match goal with H : run _ (cell_32 _ _ _) _ = _ |- _ =>
    apply cell_32_ok in H as (fitted & ->) end.
  match goal with H : run _ (cell_42 _ _ _) _ = _ |- _ =>
    apply cell_42_ok in H as (fitted' & ->) end.
  match goal with H : run _ (cell_44 _ _ _) _ = _ |- _ =>
    apply cell_44_ok in H as (rest & ->) end.
  eexists _, fitted, _, fitted'. sublist_log.
Qed.

Lemma best_knn_of_the_grid_predicts_the_test_set_witness :
  exists KNN_tuned KNNz : obj,
    sublist
      [Called (GridSearchCV 1%positive param_grid None 3) (ok KNN_tuned);
       Called (BestEstimator KNN_tuned) (ok KNNz);
       Called (Predict KNNz Demo.X600) (ok Demo.y600)]
      (run Demo.libraries
         (tune_knn 1%positive Demo.X600 Demo.X600 Demo.X600 Demo.y600 Demo.y600 Demo.y600
            2.25 0.5) 2%positive).1.1.
Proof.
  edestruct (fun w' => best_knn_of_the_grid_predicts_the_test_set Demo.libraries
                         2%positive w' 1%positive Demo.X600 Demo.X600 Demo.X600
                         Demo.y600 Demo.y600 Demo.y600 2.25 0.5)
    as [(KNN_tuned & fitted & KNNz & fitted' & Hsub) _];
    [vm_compute; reflexivity |].
  exists KNN_tuned, KNNz. etrans; [| exact Hsub]. sublist_log.
Defined.

(** ** C6: the three class labels *)



Lemma colors_keys (s : string) : is_Some (colors !! s) <-> In s class_labels.
Proof.
  unfold colors, class_labels. cbn [In]. split.
  - intros [c H]. rewrite !lookup_insert_Some, lookup_empty in H.
    destruct H as [[<- _] | [_ [[<- _] | [_ [[<- _] | [_ H]]]]]]; auto. discriminate.
  - intros [<- | [<- | [<- | []]]]; eexists; reflexivity.
Qed.

Lemma enumerate_labels {A} (l : list A) (start : nat) :
  (combine (seq start (length l)) l).*2 = l.
Proof.
  revert start. induction l as [| a l IH]; intros start; cbn; [reflexivity |].
  f_equal. apply IH.
Qed.

(** The loop of cell 76 asks for one ROC curve per item, in order, and
    adds exactly the labels of the items to the keys of each dictionary. *)
Lemma roc_loop_ok {world} (h : handler world) y_test y_prob items :
  forall (w w' : world) d0 d log,
    run h (roc_loop y_test y_prob items d0) w = (log, ok d, w') ->
    roc_labels log = items.*2 /\
    dom (fpr d) = dom (fpr d0) ∪ list_to_set items.*2 /\
    dom (tpr d) = dom (tpr d0) ∪ list_to_set items.*2 /\
    dom (roc_auc d) = dom (roc_auc d0) ∪ list_to_set items.*2.
Proof.
  induction items as [| [i label] items IH]; intros w w' d0 d log H.
  - cbn in H. injection H as <- <- <-. cbn. repeat split; set_solver.
  - cbn [roc_loop] in H. run_inv.
    match goal with H : run _ (roc_loop _ _ _ _) _ = _ |- _ =>
      apply IH in H as (Hl & Hf & Ht & Ha) end.
    cbn [fpr tpr roc_auc] in *. unfold roc_labels in *.
    cbn [app omap list_omap pos_label_of]. cbn -[omap]. rewrite Hl.
    split; [reflexivity |].
    rewrite Hf, Ht, Ha, !dom_insert_L. repeat split; set_solver.
Qed.

Lemma cell_76_ok {world} (h : handler world) (w w' : world) B y_test y_prob log labels d :
  run h (cell_76 B y_test y_prob) w = (log, ok (labels, d), w') ->
  (exists w1, h _ (Classes B) w = (ok labels, w1)) /\
  roc_labels log = labels /\
  dom (fpr d) = list_to_set labels /\
  dom (tpr d) = list_to_set labels /\
  dom (roc_auc d) = list_to_set labels.
Proof.
  intros H. unfold cell_76 in H. run_inv. simplify_eq.
  match goal with H : run _ (roc_loop _ _ _ _) _ = _ |- _ =>
    apply roc_loop_ok in H as (Hl & Hf & Ht & Ha) end.
  unfold enumerate in *. rewrite enumerate_labels in *. cbn [fpr tpr roc_auc] in *.
  split; [eauto |]. split.
  - unfold roc_labels in *. cbn. rewrite omap_app. cbn. rewrite app_nil_r. exact Hl.
  - rewrite Hf, Ht, Ha. repeat split; set_solver.
Qed.




(** ** C7: how the classification table is put together *)











(** ** C9: the copy protects the original table *)

Lemma stmt_bind_ok {A B} (m : Store.stmt A) (f : A -> Store.stmt B) σ b σ2 :
  (m ≫= f) σ = ok (b, σ2) ->
  exists a σ1, m σ = ok (a, σ1) /\ f a σ1 = ok (b, σ2).
Proof.
  unfold mbind, Store.stmt_bind. destruct (m σ) as [e | [a σ1]]; [discriminate |].
  intros H. exists a, σ1. split; [reflexivity | exact H].
Qed.

Lemma read_ok (l : Store.loc) σ d σ1 :
  Store.read l σ = ok (d, σ1) -> σ !! l = Some d /\ σ1 = σ.
Proof.
  unfold Store.read. destruct (σ !! l) as [d' |]; [| discriminate].
  intros H. injection H as <- <-. split; reflexivity.
Qed.

Lemma lift_result_ok {A} (r : result A) σ a σ1 :
  Store.lift_result r σ = ok (a, σ1) -> r = ok a /\ σ1 = σ.
Proof.
  unfold Store.lift_result. destruct r as [e | a']; [discriminate |].
  intros H. injection H as <- <-. split; reflexivity.
Qed.

(** Takes a successful statement apart. *)
Ltac stmt_inv :=
  repeat match goal with
  | H : (mbind _ _) _ = ok (_, _) |- _ =>
      apply stmt_bind_ok in H as (? & ? & ? & H); cbn beta in H
  | H : Store.read _ _ = ok (_, _) |- _ => apply read_ok in H as [? ->]
  | H : Store.lift_result _ _ = ok (_, _) |- _ => apply lift_result_ok in H as [? ->]
  | H : Store.getitem_at _ _ _ = ok _ |- _ => unfold Store.getitem_at in H
  | H : Store.copy_at _ _ = ok _ |- _ => unfold Store.copy_at in H
  | H : Store.del_at _ _ _ = ok _ |- _ => unfold Store.del_at in H
  end.

(** C9.  Lines 153-157 (with the target column spec_z of [qsos]) and lines
    916-919 (with the target column class of [all_sources]): when
    [t = df[target]; features = copy.copy(df); del features[target]] has
    run, the object [df] refers to is the same table as before, it still has
    the target column, and reading that column from it still gives [t];
    [features] is another object, which holds the table without the column;
    no other object of the store has changed. *)
Theorem del_on_the_copy_leaves_the_original (σ σ' : Store.heap) (df features : Store.loc)
    (d : DataFrame) (target : string) (t : Series) :
  σ !! df = Some d ->
  Store.split_target df target σ = ok ((t, features), σ') ->
  σ' !! df = Some d /\
  In target (columns d) /\
  getitem d target = ok t /\
  features <> df /\
  (exists d', delitem d target = ok d' /\ σ' !! features = Some d') /\
  (forall l, l <> features -> σ' !! l = σ !! l).
Proof.
  intros Hdf H. unfold Store.split_target in H. stmt_inv.
  unfold Store.alloc, Store.write in *. cbv [mret Store.stmt_ret] in *. simplify_eq.
  match goal with H : getitem _ target = ok _ |- _ => rename H into Hget end.
  match goal with H : delitem _ target = ok _ |- _ => rename H into Hdel end.
  assert (fresh (dom σ) <> df) as Hfresh.
  { intros E. apply (is_fresh (dom σ)). rewrite E. apply elem_of_dom. eauto. }
  match goal with H : _ !! _ = Some _ |- _ =>
    rewrite lookup_insert_eq in H; injection H as <- end.
  split.
  { rewrite !lookup_insert_ne by exact Hfresh. exact Hdf. }
  split.
  { apply getitem_ok in Hget as (j & Hj & _).
    destruct (in_dec String.string_dec target (columns d)) as [Hin | Hnin]; [exact Hin |].
    apply col_pos_None in Hnin. congruence. }
  split; [exact Hget |]. split; [exact Hfresh |]. split.
  - eexists. split; [exact Hdel |]. apply lookup_insert_eq.
  - intros l' Hl'. rewrite !lookup_insert_ne by (intros E; apply Hl'; symmetry; exact E).
    reflexivity.
Qed.

Lemma del_on_the_copy_leaves_the_original_witness :
  exists (σ' : gmap positive DataFrame) (features : positive),
    Store.split_target 1%positive "spec_z" (<[1%positive := Demo.two_quasars]> ∅)
      = ok (([(7%Z, Num 1.5); (8%Z, Num 2.5)], features), σ') /\
    σ' !! 1%positive = Some Demo.two_quasars /\
    features <> 1%positive.
Proof.
  eexists _, _. split; [vm_compute; reflexivity |].
  edestruct (fun σ' features =>
               del_on_the_copy_leaves_the_original
                 (<[1%positive := Demo.two_quasars]> ∅) σ' 1%positive features
                 Demo.two_quasars "spec_z" [(7%Z, Num 1.5); (8%Z, Num 2.5)])
    as (Hsame & _ & _ & Hne & _);
    [reflexivity | vm_compute; reflexivity |].
  split; [exact Hsame | exact Hne].
Defined.

(** Without the copy, the same lines remove the column from the table that
    [df] refers to. *)
Lemma del_on_an_alias_changes_the_original (σ σ' : gmap positive DataFrame)
    (df features : positive) (d : DataFrame) (target : string) (t : Series) :
  σ !! df = Some d ->
  Store.split_target_aliased df target σ = ok ((t, features), σ') ->
  features = df /\ exists d', delitem d target = ok d' /\ σ' !! df = Some d'.
Proof.
  intros Hdf H. unfold Store.split_target_aliased in H. stmt_inv.
  unfold Store.write in *. cbv [mret Store.stmt_ret] in *. simplify_eq.
  split; [reflexivity |]. eexists. split; [eassumption | apply lookup_insert_eq].
Qed.

Example alias_loses_the_column :
  exists σ', Store.split_target_aliased 1%positive "spec_z"
               (<[1%positive := Demo.two_quasars]> ∅)
             = ok (([(7%Z, Num 1.5); (8%Z, Num 2.5)], 1%positive), σ') /\
            (columns <$> σ' !! 1%positive) = Some ["dered_r"; "g_r_color"].
Proof. eexists. split; vm_compute; reflexivity. Qed.

(** The statements run whenever the table has the column. *)
Lemma split_target_total (σ : gmap positive DataFrame) (df : positive) (d : DataFrame)
    (target : string) :
  σ !! df = Some d -> In target (columns d) ->
  exists t features σ', Store.split_target df target σ = ok ((t, features), σ').
Proof.
  intros Hdf Hin.
  destruct (col_pos target (columns d)) as [j |] eqn:Hj;
    [| apply col_pos_None in Hj; contradiction].
  unfold Store.split_target, Store.getitem_at, Store.copy_at, Store.del_at.
  unfold mbind, Store.stmt_bind, Store.read, Store.lift_result, Store.alloc, Store.write.
  rewrite Hdf. unfold ok. cbn beta iota. unfold getitem. rewrite Hj.
  unfold ok. cbn beta iota. rewrite Hdf. cbn beta iota.
  rewrite lookup_insert_eq. cbn beta iota.
  unfold delitem. cbn [copy_copy columns rows]. rewrite Hj. unfold ok.
  cbn. eexists _, _, _. reflexivity.
Qed.

(** ** C3 and C8: every call of the notebook, whatever the libraries answer *)
















(** A malformed table: the exception of the comparison ends cell 7. *)
Lemma cell_7_clean_fails {world} (h : handler world) (w w' : world) (raw : DataFrame)
    (e : exn) :
  h _ (ReadCsv qso_csv 0 regression_usecols) w = (ok raw, w') ->
  clean raw = inl e ->
  run h cell_7 w
    = ([Called (ReadCsv qso_csv 0 regression_usecols) (ok raw); Raised e], inl e, w').
Proof. intros H Hc. unfold cell_7. cbn. rewrite H. cbn. rewrite Hc. reflexivity. Qed.






(** * More properties of the cells *)

(** ** The cleaning step: errors, repetition, missing values *)

(** X1.  The filter raises only for a column it cannot find, and asks for
    [dered_r] first. *)
Theorem clean_raises_for_a_missing_column (df : DataFrame) (e : exn) :
  clean df = inl e <->
  (~ In "dered_r" (columns df) /\ e = KeyError "dered_r") \/
  (In "dered_r" (columns df) /\ ~ In "g_r_color" (columns df) /\
   e = KeyError "g_r_color").
Proof.
  split.
  - intros H.
    destruct (col_pos "dered_r" (columns df)) as [j1 |] eqn:Hj1.
    + assert (In "dered_r" (columns df)) as Hin1.
      { apply col_pos_nth in Hj1. eapply nth_error_In, Hj1. }
      destruct (col_pos "g_r_color" (columns df)) as [j2 |] eqn:Hj2.
      * assert (In "g_r_color" (columns df)) as Hin2.
        { apply col_pos_nth in Hj2. eapply nth_error_In, Hj2. }
        destruct (clean_total df Hin1 Hin2) as [df' Hok]. rewrite Hok in H. discriminate.
      * right. split; [exact Hin1 |]. split; [apply col_pos_None, Hj2 |].
        unfold clean, getitem in H. rewrite Hj1, Hj2 in H. cbn in H.
        injection H as <-. reflexivity.
    + left. split; [apply col_pos_None, Hj1 |].
      unfold clean, getitem in H. rewrite Hj1 in H. cbn in H.
      injection H as <-. reflexivity.
  - intros [[H1 ->] | (H1 & H2 & ->)].
    + apply col_pos_None in H1. unfold clean, getitem. rewrite H1. reflexivity.
    + apply col_pos_None in H2.
      destruct (col_pos "dered_r" (columns df)) as [j1 |] eqn:Hj1;
        [| apply col_pos_None in Hj1; contradiction].
      unfold clean, getitem. rewrite Hj1, H2. reflexivity.
Qed.

Lemma filter_filter_same {A} (p : A -> bool) (l : list A) :
  List.filter p (List.filter p l) = List.filter p l.
Proof.
  induction l as [| a l IH]; [reflexivity |]. cbn.
  destruct (p a) eqn:Hp; cbn; [rewrite Hp, IH |]; auto.
Qed.

Lemma clean_needs_its_columns (df df' : DataFrame) :
  clean df = ok df' -> In "dered_r" (columns df) /\ In "g_r_color" (columns df).
Proof.
  unfold clean. intros H.
  apply bind_ok in H as (s1 & H1 & H). apply bind_ok in H as (s2 & H2 & _).
  apply getitem_ok in H1 as (j1 & H1 & _). apply getitem_ok in H2 as (j2 & H2 & _).
  apply col_pos_nth in H1, H2. split; eapply nth_error_In; eassumption.
Qed.

(** X2.  Cleaning a cleaned table changes nothing. *)
Theorem clean_twice_is_clean_once (df df' : DataFrame) :
  clean df = ok df' -> clean df' = ok df'.
Proof.
  intros H. pose proof (clean_ok _ _ H) as [Hc Hr].
  destruct (clean_needs_its_columns _ _ H) as [H1 H2].
  rewrite <- Hc in H1, H2.
  destruct (clean_total df' H1 H2) as [df'' H'].
  pose proof (clean_ok _ _ H') as [Hc' Hr'].
  rewrite Hc, Hr, filter_filter_same, <- Hr in Hr'.
  rewrite H'. f_equal.
  destruct df' as [c' r'], df'' as [c'' r'']. cbn in *. congruence.
Qed.

Lemma clean_twice_is_clean_once_witness :
  clean Demo.qso_regression = ok Demo.qsos /\ clean Demo.qsos = ok Demo.qsos.
Proof.
  assert (clean Demo.qso_regression = ok Demo.qsos) as H by (vm_compute; reflexivity).
  split; [exact H | exact (clean_twice_is_clean_once _ _ H)].
Defined.

(** A comparison with NaN is false (IEEE 754). *)
Lemma ltb_not_nan_r (k x : float) : (k <? x) = true -> is_nan x = false.
Proof.
  unfold is_nan. rewrite FloatAxioms.ltb_spec, FloatAxioms.eqb_spec.
  unfold SpecFloat.SFltb, SpecFloat.SFeqb.
  destruct (FloatOps.Prim2SF x) as [s | s | | s m e]; destruct (FloatOps.Prim2SF k) as [s' | s' | | s' m' e'];
    cbn; try discriminate; try reflexivity;
    try (destruct s; reflexivity).
  all: intros _; rewrite Z.compare_refl, Pos.compare_cont_refl; destruct s; reflexivity.
Qed.

(** X3.  A row whose magnitude or colour is missing (NaN) does not survive the
    filter: the sentinel -9999 is not the only bad value that is dropped. *)
Theorem clean_drops_rows_with_a_missing_value (df df' : DataFrame) (r : Row) (x : float) :
  clean df = ok df' ->
  cell_at (columns df) "dered_r" r = Num x \/ cell_at (columns df) "g_r_color" r = Num x ->
  is_nan x = true ->
  ~ In r (rows df').
Proof.
  intros H Hcell Hnan Hin.
  apply clean_ok in H as [_ Hr]. rewrite Hr in Hin.
  apply List.filter_In in Hin as [_ Hk].
  unfold keeps in Hk. apply andb_true_iff in Hk as [Hk H3].
  apply andb_true_iff in Hk as [H1 H2].
  destruct Hcell as [Hc | Hc]; rewrite Hc in *; cbn in *.
  - apply ltb_not_nan_r in H1. congruence.
  - apply ltb_not_nan_r in H2. congruence.
Qed.

Lemma clean_drops_rows_with_a_missing_value_witness :
  In (Demo.source (Num 1.5) nan 0.75 603) (rows Demo.qso_regression) /\
  ~ In (Demo.source (Num 1.5) nan 0.75 603) (rows Demo.qsos).
Proof.
  split.
  - apply in_or_app. right. cbn. auto.
  - apply (clean_drops_rows_with_a_missing_value Demo.qso_regression Demo.qsos _ nan).
    + vm_compute. reflexivity.
    + left. vm_compute. reflexivity.
    + vm_compute. reflexivity.
Defined.

(** ** Features and target: what [X] and [y] are made of *)

Lemma col_pos_lt (name : string) (cols : list string) (j : nat) :
  col_pos name cols = Some j -> (j < length cols)%nat.
Proof.
  intros H. apply col_pos_nth in H. apply nth_error_Some. congruence.
Qed.

Lemma length_remove_nth {A} (j : nat) (l : list A) :
  (j < length l)%nat -> length (remove_nth j l) = (length l - 1)%nat.
Proof.
  revert j. induction l as [| a l IH]; intros j Hj; cbn in Hj; [lia |].
  destruct j as [| j]; cbn; [lia |]. rewrite IH by lia. lia.
Qed.

Lemma in_remove_nth (name c : string) (cols : list string) (j : nat) :
  col_pos name cols = Some j -> NoDup cols ->
  In c (remove_nth j cols) <-> In c cols /\ c <> name.
Proof.
  revert j. induction cols as [| a cols IH]; intros j Hj Hnd; [discriminate |].
  apply NoDup_cons in Hnd as [Ha Hnd]. cbn in Hj.
  destruct (String.eqb a name) eqn:Ha'.
  - injection Hj as <-. apply String.eqb_eq in Ha'. subst a. cbn.
    split.
    + intros Hc. split; [right; exact Hc |]. intros ->. apply Ha.
      apply list_elem_of_In. exact Hc.
    + intros [[-> | Hc] Hne]; [contradiction | exact Hc].
  - apply String.eqb_neq in Ha'.
    destruct (col_pos name cols) as [j' |] eqn:Hj'; [| discriminate].
    injection Hj as <-. cbn. rewrite (IH j' eq_refl Hnd).
    split.
    + intros [-> | [Hc Hne]]; [split; [left; reflexivity | exact Ha'] |].
      split; [right; exact Hc | exact Hne].
    + intros [[-> | Hc] Hne]; [left; reflexivity | right; split; assumption].
Qed.

(** The three statements that split a table into target and features, as
    cells 7 and 51 run them on a table value. *)
Lemma split_ok (df features : DataFrame) (target : string) (t : Series) :
  getitem df target = ok t -> delitem (copy_copy df) target = ok features ->
  exists j,
    col_pos target (columns df) = Some j /\
    columns features = remove_nth j (columns df) /\
    frame_values features = List.map (fun r : Row => remove_nth j (snd r)) (rows df) /\
    values t = List.map (fun r : Row => nth j (snd r) missing) (rows df).
Proof.
  intros Ht Hf. apply getitem_ok in Ht as (j & Hj & ->).
  unfold delitem, copy_copy in Hf. cbn in Hf. rewrite Hj in Hf.
  injection Hf as <-. exists j. unfold frame_values, values. cbn.
  rewrite !List.map_map. auto.
Qed.

(** X4.  Cells 7, 12 and 13: the i-th row of [X] is the i-th cleaned row
    without its [spec_z] cell and [y[i]] is that cell, so the design matrix
    and the redshifts have one entry per cleaned row, in the same order; the
    two shapes that are printed are (rows, columns - 1) and (rows,). *)
Theorem design_matrix_and_redshifts_are_row_aligned {world} (h : handler world)
    (w w' : world) (log : list entry) (qsos : DataFrame) (X : matrix) (y : list cell) :
  run h ('(qsos, qso_redshifts, qso_features) ← cell_7;
         '(X, y) ← cell_12 qso_redshifts qso_features;
         mret (qsos, X, y)) w = (log, ok (qsos, X, y), w') ->
  exists j,
    col_pos "spec_z" (columns qsos) = Some j /\
    X = List.map (fun r : Row => remove_nth j (snd r)) (rows qsos) /\
    y = List.map (fun r : Row => nth j (snd r) missing) (rows qsos) /\
    length X = length y /\
    sublist
      [Called (PyPrint [VStr "Design matrix shape =";
                        VTuple [VNat (length (rows qsos));
                                VNat (length (columns qsos) - 1)]]) (ok tt);
       Called (PyPrint [VStr "Response variable vector shape =";
                        VTuple [VNat (length (rows qsos))]]) (ok tt)] log.
Proof.
  intros H. unfold cell_7, cell_12, print in H. run_inv.
  match goal with Hq : (qsos, X, y) = _ |- _ => injection Hq as <- <- <- end.
  match goal with Hq : (X, y) = _ |- _ => injection Hq as -> -> end.
  match goal with Hq : (qsos, _, _) = _ |- _ => injection Hq as <- <- <- end.
  match goal with
  | Hg : getitem _ "spec_z" = ok _, Hd : delitem _ "spec_z" = ok _ |- _ =>
      destruct (split_ok _ _ _ _ Hg Hd) as (j & Hj & Hc & HX & Hy)
  end.
  match type of HX with frame_values ?f = _ =>
    assert (length (rows f) = length (rows qsos)) as Hlen
  end.
  { unfold frame_values in HX. apply (f_equal (@length _)) in HX.
    rewrite !List.length_map in HX. exact HX. }
  exists j. rewrite HX, Hy, !List.length_map.
  repeat (split; [first [assumption | reflexivity] |]).
  unfold frame_shape. rewrite Hc, (length_remove_nth j), Hlen by (eapply col_pos_lt, Hj).
  repeat match goal with u : unit |- _ => destruct u end.
  sublist_log.
Qed.

Lemma design_matrix_and_redshifts_are_row_aligned_witness :
  exists (X : matrix) (y : list cell),
    X = List.map (fun r : Row => remove_nth 0 (snd r)) (rows Demo.qsos) /\
    y = List.map (fun r : Row => nth 0 (snd r) missing) (rows Demo.qsos) /\
    length X = length y.
Proof.
  edestruct (fun log X y w' =>
               design_matrix_and_redshifts_are_row_aligned Demo.libraries 1%positive w' log
                 Demo.qsos X y)
    as (j & Hj & HX & Hy & Hlen & _); [vm_compute; reflexivity |].
  vm_compute in Hj. injection Hj as <-.
  eexists _, _. split; [exact HX |]. split; [exact Hy | exact Hlen].
Defined.

(** X5.  Cell 51: [X] and [y] are the cleaned rows of the three catalogues split
    at the [class] column, row by row; when no two columns have the same
    name, [class] is not among the feature columns and every other column
    is. *)
Theorem class_is_the_label_and_not_a_feature {world} (h : handler world) (w w' : world)
    (log : list entry) (all_sources : DataFrame) (all_labels : Series)
    (all_features : DataFrame) (X : matrix) (y : list cell) :
  run h cell_51 w = (log, ok (all_sources, all_labels, all_features, X, y), w') ->
  exists j,
    col_pos "class" (columns all_sources) = Some j /\
    X = List.map (fun r : Row => remove_nth j (snd r)) (rows all_sources) /\
    y = List.map (fun r : Row => nth j (snd r) missing) (rows all_sources) /\
    length X = length y /\
    (NoDup (columns all_sources) ->
     forall c, In c (columns all_features) <-> In c (columns all_sources) /\ c <> "class").
Proof.
  intros H. unfold cell_51 in H. run_inv.
  match goal with Hq : (all_sources, _, _, _, _) = _ |- _ => injection Hq as -> -> -> -> -> end.
  match goal with
  | Hg : getitem _ "class" = ok _, Hd : delitem _ "class" = ok _ |- _ =>
      destruct (split_ok _ _ _ _ Hg Hd) as (j & Hj & Hc & HX & Hy)
  end.
  exists j. rewrite HX, Hy, !List.length_map.
  repeat (split; [first [assumption | reflexivity] |]).
  intros Hnd c. rewrite Hc. apply in_remove_nth; assumption.
Qed.

Lemma class_is_the_label_and_not_a_feature_witness :
  exists all_features : DataFrame,
    columns all_features = Demo.feature_columns /\
    ~ In "class" (columns all_features) /\ In "dered_r" (columns all_features).
Proof.
  edestruct (fun log l X y w' =>
               class_is_the_label_and_not_a_feature Demo.libraries 1%positive w' log
                 Demo.all_sources l
                 (mkDataFrame Demo.feature_columns
                    (List.map (fun r : Row => (fst r, remove_nth 0 (snd r)))
                       (rows Demo.all_sources))) X y)
    as (j & _ & _ & _ & _ & Hcols); [vm_compute; reflexivity |].
  eexists (mkDataFrame _ _). split; [reflexivity |].
  assert (NoDup (columns Demo.all_sources)) as Hnd.
  { apply NoDup_ListNoDup. vm_compute. repeat constructor; cbn; intuition discriminate. }
  split.
  - intros Hin. apply (Hcols Hnd) in Hin as [_ Hne]. apply Hne. reflexivity.
  - apply (Hcols Hnd). split; [vm_compute; auto | discriminate].
Defined.

(** ** Cell 43: the quasar at position 571 of the test split *)

Lemma item_ok {A} (a : list A) (j : nat) (x : A) :
  item a j = ok x <-> nth_error a j = Some x.
Proof.
  unfold item. destruct (nth_error a j) as [x' |]; split; intros H;
    first [injection H as <-; reflexivity | discriminate].
Qed.

Lemma item_raises {A} (a : list A) (j : nat) :
  (length a <= j)%nat -> exists msg, item a j = inl (IndexError msg).
Proof.
  intros H. apply nth_error_None in H. unfold item. rewrite H. eexists. reflexivity.
Qed.

(** X6.  The cell reads row 571 of [X_test]: on a test split of fewer than 572
    rows it raises [IndexError] before it calls anything; when it completes,
    the one prediction it asks for is for that row alone, and the redshift
    printed beside it is entry 571 of [y_test]. *)
Theorem cell_43_needs_572_test_rows {world} (h : handler world) (w : world)
    (KNNz : obj) (X_test : matrix) (y_test : list cell) :
  ((length X_test <= 571)%nat ->
   exists msg,
     run h (cell_43 KNNz X_test y_test) w
       = ([Raised (IndexError msg)], inl (IndexError msg), w)) /\
  (forall log w',
      run h (cell_43 KNNz X_test y_test) w = (log, ok tt, w') ->
      exists row zspec zphoto zphoto0,
        nth_error X_test 571 = Some row /\
        nth_error y_test 571 = Some zspec /\
        nth_error zphoto 0 = Some zphoto0 /\
        log = [Called (Predict KNNz [row]) (ok zphoto);
               Called (PyPrint [VStr "True redshift cf. KNN photo-z:"; of_cell zspec;
                                VStr " cf."; of_cell zphoto0]) (ok tt)]).
Proof.
  split.
  - intros Hlen. destruct (item_raises X_test 571 Hlen) as [msg Hmsg].
    exists msg. unfold cell_43. rewrite Hmsg. reflexivity.
  - intros log w' H. unfold cell_43, print in H. run_inv.
    repeat match goal with
           | Hi : item _ _ = ok _ |- _ => apply item_ok in Hi
           | u : unit |- _ => destruct u
           end.
    eauto 10.
Qed.

Lemma cell_43_needs_572_test_rows_witness :
  (exists msg,
      run Demo.libraries (cell_43 1%positive (firstn 571 Demo.X600) Demo.y600) 1%positive
        = ([Raised (IndexError msg)], inl (IndexError msg), 1%positive)) /\
  (exists row zphoto,
      nth_error Demo.X600 571 = Some row /\
      In (Called (Predict 1%positive [row]) (ok zphoto))
        (run Demo.libraries (cell_43 1%positive Demo.X600 Demo.y600) 1%positive).1.1).
Proof.
  split.
  - apply (cell_43_needs_572_test_rows Demo.libraries 1%positive 1%positive
             (firstn 571 Demo.X600) Demo.y600).
    apply Nat.leb_le. vm_compute. reflexivity.
  - edestruct (fun log w' =>
                 proj2 (cell_43_needs_572_test_rows Demo.libraries 1%positive 1%positive
                          Demo.X600 Demo.y600) log w')
      as (row & zspec & zphoto & zphoto0 & Hrow & _ & _ & Hlog); [vm_compute; reflexivity |].
    exists row, zphoto. split; [exact Hrow |].
    match type of Hlog with _ = ?l =>
      replace ((run Demo.libraries (cell_43 1%positive Demo.X600 Demo.y600) 1%positive).1.1)
        with l by (rewrite <- Hlog; vm_compute; reflexivity)
    end.
    left. reflexivity.
Defined.

(** ** Cell 25: [plot_validation_curve] *)

(** Takes the answer to the next call of a run apart. *)
Ltac answer h :=
  match goal with
  | |- context [h ?X ?c ?w] => destruct (h X c w) as [[? | ?] ?]; cbn
  end.

Ltac pvc_failed :=
  split; [eauto |];
  split; [eexists; reflexivity |];
  intros ? Hin; cbn in Hin;
  repeat match type of Hin with
         | _ \/ _ => destruct Hin as [Hin | Hin]
         | False => destruct Hin
         | Called _ _ = Raised _ => discriminate Hin
         | Raised _ = Raised _ => injection Hin as <-; eexists; reflexivity
         end.

(** X7.  The notebook's one function draws the two bands and the two curves
    first and takes the minimum and the maximum of the mean scores after
    that.  With no scores for validation or for training it ends in an
    exception once the drawing is done -- a [ValueError] of its own, if no
    drawing call failed -- and never reaches [plt.ylim]; when it returns,
    there were scores on both sides and it has made its seven calls, with
    the y-limits 0.1 below the smallest mean validation score and 0.1 above
    the largest mean training score. *)
Theorem plot_validation_curve_needs_scores {world} (h : handler world) (w : world)
    (param_name : string) (parameter_values : list pyval)
    (training_scores validation_scores : list (list float)) :
  let out := run h (plot_validation_curve param_name parameter_values
                      training_scores validation_scores) w in
  (validation_scores = [] \/ training_scores = [] ->
   (exists e, out.1.2 = inl e) /\
   called_fns out.1.1
     `prefix_of` ["plt.fill_between"; "plt.fill_between"; "plt.plot"; "plt.plot"] /\
   (forall e, In (Raised e) out.1.1 -> exists msg, e = ValueError msg)) /\
  (forall v, out.1.2 = ok v ->
   validation_scores <> [] /\ training_scores <> [] /\
   called_fns out.1.1
     = ["plt.fill_between"; "plt.fill_between"; "plt.plot"; "plt.plot"; "plt.ylim";
        "plt.xlabel"; "plt.legend"] /\
   exists lo hi shown,
     np_min (List.map np_mean validation_scores) = ok lo /\
     np_max (List.map np_mean training_scores) = ok hi /\
     In (Called (LibCall "plt.ylim" [VFloat (lo - 0.1); VFloat (hi + 0.1)]) (ok shown))
        out.1.1).
Proof.
  cbv zeta. unfold plot_validation_curve, plt. split.
  - intros Hempty. cbn.
    repeat (answer h; [pvc_failed |]).
    destruct Hempty as [-> | ->]; [| destruct validation_scores]; cbn; pvc_failed.
  - intros v. cbn.
    repeat (answer h; [discriminate |]).
    destruct validation_scores as [| vs validation_scores]; [discriminate |].
    destruct training_scores as [| ts training_scores]; [discriminate |].
    cbn. repeat (answer h; [discriminate |]). intros _.
    repeat (split; [first [discriminate | reflexivity] |]).
    eexists _, _, _. repeat (split; [reflexivity |]).
    cbn. auto 10.
Qed.

Lemma plot_validation_curve_needs_scores_witness :
  (forall e,
      In (Raised e)
        (run Demo.libraries
           (plot_validation_curve "n_neighbors" param_range [[0.75; 0.5; 1.0]] [])
           1%positive).1.1 ->
      exists msg, e = ValueError msg) /\
  called_fns
    (run Demo.libraries
       (plot_validation_curve "n_neighbors" param_range
          [[0.75; 0.5; 1.0]] [[0.5; 0.25; 0.75]]) 1%positive).1.1
  = ["plt.fill_between"; "plt.fill_between"; "plt.plot"; "plt.plot"; "plt.ylim";
     "plt.xlabel"; "plt.legend"].
Proof.
  split.
  - apply (proj1 (plot_validation_curve_needs_scores Demo.libraries 1%positive
                    "n_neighbors" param_range [[0.75; 0.5; 1.0]] [])).
    left. reflexivity.
  - apply (proj2 (plot_validation_curve_needs_scores Demo.libraries 1%positive
                    "n_neighbors" param_range [[0.75; 0.5; 1.0]] [[0.5; 0.25; 0.75]]) VNone).
    vm_compute. reflexivity.
Defined.

(** ** Cell 60: the names beside the feature importances *)

Lemma col_pos_In (name : string) (cols : list string) (j : nat) :
  col_pos name cols = Some j -> In name cols.
Proof. intros H. apply col_pos_nth in H. eapply nth_error_In, H. Qed.

(** Pairing the importances with the header of the table that still has
    the target column gives the right names exactly when the target is the
    last column. *)
Lemma zip_pairs_remove_nth (name : string) (cols : list string) :
  forall (j : nat) (xs : list float),
    col_pos name cols = Some j -> NoDup cols -> S (length xs) = length cols ->
    zip_pairs cols xs = zip_pairs (remove_nth j cols) xs <->
    exists front, cols = front ++ [name].
Proof.
  induction cols as [| a cols IH]; intros j xs Hj Hnd Hlen; [discriminate |].
  apply NoDup_cons in Hnd as [Ha Hnd]. cbn in Hj, Hlen.
  destruct (String.eqb a name) eqn:Ha'.
  - injection Hj as <-. apply String.eqb_eq in Ha'. subst a. cbn.
    destruct cols as [| b cols].
    + destruct xs; [| discriminate]. split; [exists []; reflexivity | reflexivity].
    + destruct xs as [| x xs]; [discriminate |]. cbn. split.
      * intros H. injection H as H _. exfalso. apply Ha. subst b. left.
      * intros [front Hf]. exfalso. apply Ha.
        destruct front as [| c front]; [discriminate |].
        injection Hf as _ Hf. rewrite Hf. apply list_elem_of_In, in_or_app.
        right. left. reflexivity.
  - apply String.eqb_neq in Ha'.
    destruct (col_pos name cols) as [j' |] eqn:Hj'; [| discriminate].
    injection Hj as <-.
    destruct xs as [| x xs].
    { apply col_pos_In in Hj'. destruct cols; [destruct Hj' | discriminate]. }
    cbn. injection Hlen as Hlen. split.
    + intros H. injection H as H. apply (IH j' xs eq_refl Hnd Hlen) in H as [front ->].
      exists (a :: front). reflexivity.
    + intros [front Hf]. f_equal. apply (IH j' xs eq_refl Hnd Hlen).
      destruct front as [| c front]; [injection Hf as -> _; contradiction |].
      injection Hf as _ ->. exists front. reflexivity.
Qed.

(** X8.  Cell 60 zips [all_sources.columns], the header that still contains
    [class], with the importances of the features [X] was made of (cell 51
    took [class] out of a copy).  With one importance per feature column
    and no repeated column name, every importance is shown beside the name
    of its own column exactly when [class] is the last column of
    [all_sources]; otherwise the names from [class] on are shifted by
    one. *)
Theorem importances_are_named_right_iff_class_is_last {world} (h : handler world)
    (w w' : world) (log : list entry) (all_sources all_features : DataFrame) (rf : obj) :
  delitem (copy_copy all_sources) "class" = ok all_features ->
  NoDup (columns all_sources) ->
  run h (cell_60 all_sources rf) w = (log, ok tt, w') ->
  exists importances ranked,
    log = [Called (FeatureImportances rf) (ok importances);
           Called (LibCall "sorted"
                     [VTuple (zip_pairs (columns all_sources) importances);
                      VKw "key" (VName "lambda q: q[1]"); VKw "reverse" (VBool true)])
                  (ok ranked);
           Called (Display ranked) (ok tt)] /\
    (length importances = length (columns all_features) ->
     zip_pairs (columns all_sources) importances
       = zip_pairs (columns all_features) importances <->
     exists front, columns all_sources = front ++ ["class"]).
Proof.
  intros Hdel Hnd H. unfold cell_60 in H. run_inv.
  repeat match goal with u : unit |- _ => destruct u end.
  eexists _, _. split; [reflexivity |].
  intros Hlen. unfold delitem, copy_copy in Hdel. cbn in Hdel.
  destruct (col_pos "class" (columns all_sources)) as [j |] eqn:Hj; [| discriminate].
  injection Hdel as <-. cbn in *.
  apply zip_pairs_remove_nth; [exact Hj | exact Hnd |].
  rewrite Hlen, (length_remove_nth j) by (eapply col_pos_lt, Hj).
  apply col_pos_lt in Hj. lia.
Qed.

Lemma importances_are_named_right_iff_class_is_last_witness :
  exists importances : list float,
    length importances = 9%nat /\
    zip_pairs (columns Demo.all_sources) importances
      <> zip_pairs Demo.feature_columns importances.
Proof.
  edestruct (fun log w' =>
               importances_are_named_right_iff_class_is_last Demo.libraries 1%positive w' log
                 Demo.all_sources
                 (mkDataFrame Demo.feature_columns
                    (List.map (fun r : Row => (fst r, remove_nth 0 (snd r)))
                       (rows Demo.all_sources))) 1%positive)
    as (importances & ranked & Hlog & Hiff).
  - vm_compute. reflexivity.
  - apply NoDup_ListNoDup. vm_compute. repeat constructor; cbn; intuition discriminate.
  - vm_compute. reflexivity.
  - apply (f_equal (fun l : list entry =>
                      match l with
                      | @Called _ c out :: _ =>
                          match c in libE X return result X -> list float with
                          | FeatureImportances _ =>
                              fun out => match out with inr a => a | inl _ => [] end
                          | _ => fun _ => []
                          end out
                      | _ => []
                      end)) in Hlog.
    cbn in Hlog. subst importances.
    exists [0.5; 0.125; 0.125; 0.25; 0.0; 0.0; 0.0; 0.0; 0.0]. split; [reflexivity |].
    intros E. apply Hiff in E as [front Hf]; [| reflexivity].
    apply (f_equal (fun l => List.last l "")) in Hf.
    rewrite List.last_last in Hf. vm_compute in Hf. discriminate Hf.
Defined.

(** ** Cells 76 and 77: the ROC curve of each class *)

Lemma column_ok (m : list (list float)) (i : nat) (s : list float) :
  column m i = ok s ->
  s = nth_column m i /\ Forall (fun row => (i < length row)%nat) m.
Proof.
  unfold column, nth_column. revert s.
  induction m as [| row m IH]; intros s H; cbn in H.
  - injection H as <-. split; constructor.
  - destruct (item row i) as [e | x] eqn:Hx; [discriminate |].
    destruct (traverse (fun row => item row i) m) as [e | s'] eqn:Hs; [discriminate |].
    injection H as <-. destruct (IH s' eq_refl) as [-> Hall].
    apply item_ok in Hx. split.
    + cbn. f_equal. symmetry. apply nth_error_nth. exact Hx.
    + constructor; [| exact Hall]. apply nth_error_Some. congruence.
Qed.

Lemma roc_loop_columns {world} (h : handler world) y_test y_prob items :
  forall (w w' : world) d0 d log,
    run h (roc_loop y_test y_prob items d0) w = (log, ok d, w') ->
    roc_calls log
      = List.map (fun il : nat * string => (y_test, nth_column y_prob (fst il), snd il)) items /\
    Forall (fun il : nat * string =>
              Forall (fun row => (fst il < length row)%nat) y_prob) items.
Proof.
  induction items as [| [i label] items IH]; intros w w' d0 d log H.
  - cbn in H. injection H as <- <- <-. split; constructor.
  - cbn [roc_loop] in H. run_inv.
    match goal with H : run _ (roc_loop _ _ _ _) _ = _ |- _ =>
      apply IH in H as [Hc Hall] end.
    match goal with H : column _ _ = ok _ |- _ => apply column_ok in H as [-> Hrow] end.
    split; [| constructor; assumption].
    unfold roc_calls in *. cbn [app omap list_omap roc_call_of]. cbn -[omap nth_column].
    rewrite Hc. reflexivity.
Qed.

Lemma enumerate_indices {A} (P : nat -> Prop) (l : list A) :
  forall start,
    Forall (fun il : nat * A => P (fst il)) (combine (seq start (length l)) l) ->
    forall i, (start <= i < start + length l)%nat -> P i.
Proof.
  induction l as [| a l IH]; intros start H i Hi; cbn in *; [lia |].
  apply Forall_cons in H as [Hs H].
  destruct (decide (i = start)) as [-> | Hne]; [exact Hs |].
  apply (IH (S start) H). lia.
Qed.

(** X9.  Cell 76: the ROC curve of the i-th class of [classes_] is computed from
    column i of [y_prob] and from [y_test], with that class as the positive
    one; the cell completes only if every row of [y_prob] has a probability
    for each class. *)
Theorem each_class_is_scored_by_its_own_column {world} (h : handler world) (w w' : world)
    (BestRFselector : obj) (y_test : list cell) (y_prob : list (list float))
    (log : list entry) (labels : list string) (d : roc_dicts) :
  run h (cell_76 BestRFselector y_test y_prob) w = (log, ok (labels, d), w') ->
  roc_calls log
    = List.map (fun il : nat * string => (y_test, nth_column y_prob (fst il), snd il))
        (enumerate labels) /\
  Forall (fun row => (length labels <= length row)%nat) y_prob.
Proof.
  intros H. unfold cell_76 in H. run_inv.
  match goal with Hq : (labels, d) = _ |- _ => injection Hq as -> -> end.
  match goal with H : run _ (roc_loop _ _ _ _) _ = _ |- _ =>
    apply roc_loop_columns in H as [Hc Hall] end.
  split.
  - unfold roc_calls in *. cbn. rewrite omap_app. cbn. rewrite app_nil_r. exact Hc.
  - unfold enumerate in Hall.
    match type of Hall with Forall _ (combine _ ?l) =>
      pose proof (enumerate_indices
                    (fun i => Forall (fun row => (i < length row)%nat) y_prob) l 0%nat Hall)
        as Hi;
      destruct (length l) as [| n]
    end.
    + apply Forall_true. intros row. lia.
    + eapply Forall_impl; [apply (Hi n); lia |]. cbn. intros row. lia.
Qed.

Lemma each_class_is_scored_by_its_own_column_witness :
  roc_calls (run Demo.libraries
               (cell_76 1%positive [Str "QSO"; Str "STAR"] [[0.25; 0.5; 0.25]; [0.0; 0.125; 0.875]])
               1%positive).1.1
  = [([Str "QSO"; Str "STAR"], [0.25; 0.0], "GALAXY");
     ([Str "QSO"; Str "STAR"], [0.5; 0.125], "QSO");
     ([Str "QSO"; Str "STAR"], [0.25; 0.875], "STAR")].
Proof.
  edestruct (fun log labels d w' =>
               each_class_is_scored_by_its_own_column Demo.libraries 1%positive w' 1%positive
                 [Str "QSO"; Str "STAR"] [[0.25; 0.5; 0.25]; [0.0; 0.125; 0.875]] log labels d)
    as [Hc _]; [vm_compute; reflexivity |].
  vm_compute in Hc |- *. exact Hc.
Defined.

(** The loop leaves alone the entries of classes it does not visit. *)
Lemma roc_loop_keeps {world} (h : handler world) y_test y_prob items :
  forall (w w' : world) d0 d log,
    run h (roc_loop y_test y_prob items d0) w = (log, ok d, w') ->
    forall label, ~ In label items.*2 ->
      fpr d !! label = fpr d0 !! label /\
      tpr d !! label = tpr d0 !! label /\
      roc_auc d !! label = roc_auc d0 !! label.
Proof.
  induction items as [| [i l] items IH]; intros w w' d0 d log H label Hn.
  - cbn in H. injection H as <- <- <-. auto.
  - cbn [roc_loop] in H. run_inv.
    match goal with H : run _ (roc_loop _ _ _ _) _ = _ |- _ =>
      pose proof (IH _ _ _ _ _ H label (fun Hin => Hn (or_intror Hin))) as (Hf & Ht & Ha)
    end.
    cbn [fpr tpr roc_auc] in *. rewrite Hf, Ht, Ha.
    assert (l <> label) as Hne by (intros ->; apply Hn; left; reflexivity).
    rewrite !lookup_insert_ne by exact Hne. auto.
Qed.

Lemma roc_loop_stores {world} (h : handler world) y_test y_prob items :
  forall (w w' : world) d0 d log,
    run h (roc_loop y_test y_prob items d0) w = (log, ok d, w') ->
    forall label, In label items.*2 ->
      exists y_score f t thresholds a,
        In (Called (RocCurve y_test y_score label) (ok (f, t, thresholds))) log /\
        In (Called (Auc f t) (ok a)) log /\
        fpr d !! label = Some f /\ tpr d !! label = Some t /\
        roc_auc d !! label = Some a.
Proof.
  induction items as [| [i l] items IH]; intros w w' d0 d log H label Hin; [destruct Hin |].
  cbn [roc_loop] in H. run_inv.
  match goal with H : run _ (roc_loop _ _ _ _) _ = _ |- _ => rename H into Hrest end.
  destruct (List.in_dec String.string_dec label items.*2) as [Hlater | Hnot].
  - destruct (IH _ _ _ _ _ Hrest label Hlater) as (s & f & t & th & a & Hroc & Hauc & Hd).
    exists s, f, t, th, a. split; [| split; [| exact Hd]]; cbn; rewrite ?in_app_iff; cbn; auto 10.
  - destruct Hin as [<- | Hin]; [| contradiction].
    destruct (roc_loop_keeps _ _ _ _ _ _ _ _ _ Hrest l Hnot) as (Hf & Ht & Ha).
    cbn [fpr tpr roc_auc] in *.
    rewrite lookup_insert_eq in Hf. rewrite lookup_insert_eq in Ht.
    rewrite lookup_insert_eq in Ha.
    repeat match goal with
           | Hg : dict_get _ _ = ok _ |- _ =>
               unfold dict_get in Hg; cbn [fpr tpr roc_auc] in Hg;
               rewrite lookup_insert_eq in Hg; injection Hg as <-
           end.
    eexists _, _, _, _, _.
    split; [| split; [| split; [exact Hf | split; [exact Ht | exact Ha]]]];
      cbn; rewrite ?in_app_iff; cbn; auto 10.
Qed.

(** X10.  Cell 76: for every class of [classes_], what the dictionaries hold
    under its name when the cell is done are the rates [roc_curve] returned
    for a call with that class as the positive one, and the area [auc]
    returned for exactly these rates. *)
Theorem each_class_keeps_its_own_curve_and_area {world} (h : handler world) (w w' : world)
    (BestRFselector : obj) (y_test : list cell) (y_prob : list (list float))
    (log : list entry) (labels : list string) (d : roc_dicts) (label : string) :
  run h (cell_76 BestRFselector y_test y_prob) w = (log, ok (labels, d), w') ->
  In label labels ->
  exists y_score f t thresholds a,
    In (Called (RocCurve y_test y_score label) (ok (f, t, thresholds))) log /\
    In (Called (Auc f t) (ok a)) log /\
    fpr d !! label = Some f /\ tpr d !! label = Some t /\ roc_auc d !! label = Some a.
Proof.
  intros H Hin.
  assert (In label (enumerate labels).*2) as Hin'
    by (unfold enumerate; rewrite enumerate_labels; exact Hin).
  unfold cell_76 in H. run_inv.
  match goal with Hq : (labels, d) = _ |- _ => injection Hq as -> -> end.
  match goal with H : run _ (roc_loop _ _ _ _) _ = _ |- _ =>
    destruct (roc_loop_stores _ _ _ _ _ _ _ _ _ H label Hin')
      as (s & f & t & th & a & Hroc & Hauc & Hd) end.
  exists s, f, t, th, a. split; [| split; [| exact Hd]]; cbn; rewrite ?in_app_iff; cbn; auto 10.
Qed.

Lemma each_class_keeps_its_own_curve_and_area_witness :
  exists (d : roc_dicts) (f t : list float) (a : float),
    (run Demo.libraries (cell_76 1%positive [Str "QSO"] [[0.25; 0.5; 0.25]]) 1%positive).1.2
      = ok (["GALAXY"; "QSO"; "STAR"], d) /\
    fpr d !! "QSO" = Some f /\ tpr d !! "QSO" = Some t /\ roc_auc d !! "QSO" = Some a.
Proof.
  edestruct (fun log d w' =>
               each_class_keeps_its_own_curve_and_area Demo.libraries 1%positive w' 1%positive
                 [Str "QSO"] [[0.25; 0.5; 0.25]] log ["GALAXY"; "QSO"; "STAR"] d "QSO")
    as (s & f & t & th & a & _ & _ & Hf & Ht & Ha).
  - vm_compute. reflexivity.
  - right. left. reflexivity.
  - eexists _, f, t, a. split; [vm_compute; reflexivity |].
    split; [exact Hf |]. split; [exact Ht | exact Ha].
Defined.

(** What a lookup in a dictionary raises. *)
Lemma dict_get_raises {V} (d : gmap string V) (k : string) (e : exn) :
  dict_get d k = inl e -> d !! k = None /\ e = KeyError k.
Proof.
  unfold dict_get. destruct (d !! k); [discriminate |].
  intros H. injection H as <-. auto.
Qed.

Section Colours.
Context (labels0 : list string) (d : roc_dicts).
Context (Hkeys : forall label, In label labels0 ->
           is_Some (fpr d !! label) /\ is_Some (tpr d !! label) /\
           is_Some (roc_auc d !! label)).

Lemma roc_plots_no_colour (labels : list string) :
  (forall label, In label labels -> In label labels0) ->
  prog_all (fun _ _ => True) (no_colour labels0) (roc_plots labels d).
Proof.
  induction labels as [| label labels IH]; intros Hsub; cbn [roc_plots]; unfold plt.
  - apply prog_all_ret.
  - destruct (Hkeys label (Hsub label (or_introl eq_refl))) as (Hf & Ht & Ha).
    apply prog_all_bind; [apply prog_all_lift | intros f].
    { intros e He. apply dict_get_raises in He as [He _]. rewrite He in Hf.
      destruct Hf; discriminate. }
    apply prog_all_bind; [apply prog_all_lift | intros t].
    { intros e He. apply dict_get_raises in He as [He _]. rewrite He in Ht.
      destruct Ht; discriminate. }
    apply prog_all_bind; [apply prog_all_lift | intros color].
    { intros e He. apply dict_get_raises in He as [He ->]. exists label.
      split; [apply Hsub; left; reflexivity |]. split; [| reflexivity].
      intros Hin. apply colors_keys in Hin. rewrite He in Hin. destruct Hin; discriminate. }
    apply prog_all_bind; [apply prog_all_lift | intros a].
    { intros e He. apply dict_get_raises in He as [He _]. rewrite He in Ha.
      destruct Ha; discriminate. }
    apply prog_all_bind; [apply prog_all_call; exact I | intros _].
    apply IH. intros l Hl. apply Hsub. right. exact Hl.
Qed.

Lemma cell_77_no_colour : prog_all (fun _ _ => True) (no_colour labels0) (cell_77 labels0 d).
Proof.
  unfold cell_77, plt.
  apply prog_all_bind; [apply roc_plots_no_colour; auto | intros _].
  repeat first [ apply prog_all_ret
               | apply prog_all_call; exact I
               | apply prog_all_bind; [| intros ?] ].
Qed.

End Colours.

(** X11.  Cells 76 and 77 together: the dictionaries cell 76 has filled have an
    entry for every class cell 77 plots, so that the only exception cell 77
    raises itself is the [KeyError] of a class that is none of 'QSO', 'STAR'
    and 'GALAXY' and so has no colour; the lookups in [fpr], [tpr] and
    [roc_auc] never fail. *)
Theorem cell_77_can_only_miss_a_colour {world world2} (h : handler world)
    (h2 : handler world2) (w w' : world) (w2 : world2) (BestRFselector : obj)
    (y_test : list cell) (y_prob : list (list float)) (log : list entry)
    (labels : list string) (d : roc_dicts) (e : exn) :
  run h (cell_76 BestRFselector y_test y_prob) w = (log, ok (labels, d), w') ->
  In (Raised e) (run h2 (cell_77 labels d) w2).1.1 ->
  exists label, In label labels /\ ~ In label class_labels /\ e = KeyError label.
Proof.
  intros H Hin. apply cell_76_ok in H as (_ & _ & Hf & Ht & Ha).
  assert (forall label, In label labels ->
            is_Some (fpr d !! label) /\ is_Some (tpr d !! label) /\
            is_Some (roc_auc d !! label)) as Hkeys.
  { intros label Hl. apply list_elem_of_In in Hl.
    repeat split; apply elem_of_dom; [rewrite Hf | rewrite Ht | rewrite Ha];
      apply elem_of_list_to_set; exact Hl. }
  pose proof (run_prog_all h2 _ _ _ (cell_77_no_colour labels d Hkeys) w2) as Hall.
  rewrite List.Forall_forall in Hall. apply (Hall _ Hin).
Qed.

Lemma cell_77_can_only_miss_a_colour_witness :
  exists label,
    In label ["GALAXY"; "QSO"; "STAR"; "UNKNOWN"] /\ ~ In label class_labels /\
    KeyError "UNKNOWN" = KeyError label.
Proof.
  eapply (fun log d w' =>
            cell_77_can_only_miss_a_colour Sample.four_classes Sample.four_classes
              1%positive w' 1%positive 1%positive [Str "QSO"] [[0.25; 0.25; 0.25; 0.25]]
              log ["GALAXY"; "QSO"; "STAR"; "UNKNOWN"] d (KeyError "UNKNOWN")).
  - vm_compute. reflexivity.
  - vm_compute. auto 10.
Defined.

(** ** The data each model of the two pipelines is given *)

(** X12.  The regression pipeline, when it runs to its end.  The linear model is
    fitted on the training part of a split of the design matrix as it is;
    the matrix is then rescaled as a whole, before it is split a second time
    (with the default test size) for the k-nearest-neighbours model; the
    grid search is fitted on the training part of that second split; the
    validation curve and the 3-fold cross-validation of the tuned model run
    on all the rescaled rows and all the redshifts. *)
Theorem regression_data_flow {world} (h : handler world) (w w' : world) (log : list entry) :
  run h regression w = (log, ok tt, w') ->
  exists log7 w7 qsos qso_redshifts qso_features
         X_train0 X_test0 y_train0 y_test0 linear fitted0
         X_scaled KNN X_train X_test y_train y_test fitted scores KNN_tuned fitted' R2,
    run h cell_7 w = (log7, ok (qsos, qso_redshifts, qso_features), w7) /\
    let X := frame_values qso_features in
    let y := values qso_redshifts in
    sublist
      [Called (TrainTestSplit X y (Some 0.25)) (ok (X_train0, X_test0, y_train0, y_test0));
       Called (Fit linear X_train0 y_train0) (ok fitted0);
       Called (Scale X) (ok X_scaled);
       Called (Construct "neighbors.KNeighborsRegressor" [VInt 5]) (ok KNN);
       Called (TrainTestSplit X_scaled y None) (ok (X_train, X_test, y_train, y_test));
       Called (Fit KNN X_train y_train) (ok fitted);
       Called (ValidationCurve KNN X_scaled y "n_neighbors" param_range 3 "r2") (ok scores);
       Called (GridSearchCV KNN param_grid None 3) (ok KNN_tuned);
       Called (Fit KNN_tuned X_train y_train) (ok fitted');
       Called (CrossValScore KNN_tuned X_scaled y 3 "r2") (ok R2)]
      log.
Proof.
  intros H. unfold regression, compare_models, tune_knn in H. run_inv.
  repeat match goal with
  | H : run _ (cell_12 _ _) _ = _ |- _ => unfold cell_12, print in H; run_inv
  | H : run _ (cell_24 _ _ _) _ = _ |- _ => unfold cell_24 in H; run_inv
  | H : run _ (cell_38 _ _ _) _ = _ |- _ => unfold cell_38 in H; run_inv
  | H : run _ (cell_15 _ _) _ = _ |- _ =>
      apply cell_15_ok in H as (? & ? & ? & ? & ? & -> & _)
  | H : run _ (cell_20 _ _) _ = _ |- _ => apply cell_20_ok in H as (? & ->)
  | H : run _ (cell_30 _) _ = _ |- _ => apply cell_30_ok in H as ->
  | H : run _ (cell_32 _ _ _) _ = _ |- _ => apply cell_32_ok in H as (? & ->)
  | H : (_, _) = (_, _) |- _ => injection H as ? ?
  end.
  subst.
  repeat match goal with u : unit |- _ => destruct u end.
  match goal with H : run _ cell_7 _ = _ |- _ =>
    eexists _, _, _, _, _, _, _, _, _, _, _, _, _, _, _, _, _, _, _, _, _, _;
    split; [exact H |]
  end.
  cbv zeta. repeat rewrite <- List.app_assoc. sublist_log.
Qed.

Lemma regression_data_flow_witness :
  exists (X X_scaled : matrix) (y : list cell) (KNN_tuned : obj) (R2 : list float),
    sublist
      [Called (Scale X) (ok X_scaled);
       Called (CrossValScore KNN_tuned X_scaled y 3 "r2") (ok R2)]
      (run Sample.short_regression regression 1%positive).1.1.
Proof.
  edestruct (fun log w' => regression_data_flow Sample.short_regression 1%positive w' log)
    as (log7 & w7 & qsos & z & f & X_train0 & X_test0 & y_train0 & y_test0 & linear & fitted0
        & X_scaled & KNN & X_train & X_test & y_train & y_test & fitted & scores
        & KNN_tuned & fitted' & R2 & _ & Hsub);
    [vm_compute; reflexivity |].
  cbv zeta in Hsub.
  exists (frame_values f), X_scaled, (values z), KNN_tuned, R2.
  match type of Hsub with sublist _ ?l =>
    replace ((run Sample.short_regression regression 1%positive).1.1) with l
      by (vm_compute; reflexivity)
  end.
  etrans; [| exact Hsub]. sublist_log.
Defined.

(** X13.  The classification pipeline, when it runs to its end.  The first
    forest, whose feature importances and out-of-bag score are shown, is
    fitted on all rows; the grid search (3 folds) is fitted on the training
    part of one split, and the predictions of the confusion matrix are those
    of the fitted search for the test part, compared with the test labels;
    for the ROC curves the best estimator of the search is fitted once more
    on the training part, and its class probabilities for the test part are
    taken from the object that this [fit] returned, its classes from the
    best estimator. *)
Theorem classification_data_flow {world} (h : handler world) (w w' : world)
    (log : list entry) :
  run h classification w = (log, ok tt, w') ->
  exists log51 w51 all_sources all_labels all_features X y
         rf fitted_all importances X_train X_test y_train y_test rf_tuned RFselector
         best y_pred cm BestRFselector fitted y_prob labels,
    run h cell_51 w = (log51, ok (all_sources, all_labels, all_features, X, y), w51) /\
    sublist
      [Called (Construct "RandomForestClassifier"
                 [VKw "n_estimators" (VInt 100); VKw "oob_score" (VBool true)]) (ok rf);
       Called (Fit rf X y) (ok fitted_all);
       Called (FeatureImportances rf) (ok importances);
       Called (TrainTestSplit X y (Some 0.25)) (ok (X_train, X_test, y_train, y_test));
       Called (GridSearchCV rf parameters (Some 3%Z) 1) (ok rf_tuned);
       Called (Fit rf_tuned X_train y_train) (ok RFselector);
       Called (BestEstimator RFselector) (ok best);
       Called (Predict RFselector X_test) (ok y_pred);
       Called (LibCall "confusion_matrix" [VArray y_test; VArray y_pred]) (ok cm);
       Called (BestEstimator RFselector) (ok BestRFselector);
       Called (Fit BestRFselector X_train y_train) (ok fitted);
       Called (PredictProba fitted X_test) (ok y_prob);
       Called (Classes BestRFselector) (ok labels)]
      log.
Proof.
  intros H.
  unfold classification, cell_58, cell_60, cell_62, cell_65, cell_66, cell_69, cell_75,
    cell_76, print, plt in H.
  run_inv.
  repeat match goal with
  | H : (_, _) = (_, _) |- _ => injection H as ? ?
  end.
  subst.
  repeat match goal with u : unit |- _ => destruct u end.
  match goal with H : run _ cell_51 _ = _ |- _ =>
    eexists _, _, _, _, _, _, _, _, _, _, _, _, _, _, _, _, _, _, _, _, _, _, _;
    split; [exact H |]
  end.
  repeat rewrite <- List.app_assoc. sublist_log.
Qed.

Lemma classification_data_flow_witness :
  exists (X_train X_test : matrix) (y_train y_test y_pred : list cell)
         (rf_tuned RFselector : obj) (cm : pyval),
    sublist
      [Called (Fit rf_tuned X_train y_train) (ok RFselector);
       Called (Predict RFselector X_test) (ok y_pred);
       Called (LibCall "confusion_matrix" [VArray y_test; VArray y_pred]) (ok cm)]
      (run Sample.short_files classification 1%positive).1.1.
Proof.
  edestruct (fun log w' => classification_data_flow Sample.short_files 1%positive w' log)
    as (log51 & w51 & all_sources & all_labels & all_features & X & y & rf & fitted_all
        & importances & X_train & X_test & y_train & y_test & rf_tuned & RFselector & best
        & y_pred & cm & BestRFselector & fitted & y_prob & labels & _ & Hsub);
    [vm_compute; reflexivity |].
  exists X_train, X_test, y_train, y_test, y_pred, rf_tuned, RFselector, cm.
  match type of Hsub with sublist _ ?l =>
    replace ((run Sample.short_files classification 1%positive).1.1) with l
      by (vm_compute; reflexivity)
  end.
  etrans; [| exact Hsub]. sublist_log.
Defined.

(** ** Cells 7 and 51: which column is missed first *)

Lemma getitem_raises (df : DataFrame) (name : string) :
  ~ In name (columns df) -> getitem df name = inl (KeyError name).
Proof. intros H. apply col_pos_None in H. unfold getitem. rewrite H. reflexivity. Qed.

Lemma getitem_total (df : DataFrame) (name : string) :
  In name (columns df) -> exists s, getitem df name = ok s.
Proof.
  intros H. unfold getitem.
  destruct (col_pos name (columns df)) eqn:Hj; [eexists; reflexivity |].
  apply col_pos_None in Hj. contradiction.
Qed.

Lemma delitem_copy_total (df : DataFrame) (name : string) :
  In name (columns df) -> exists df', delitem (copy_copy df) name = ok df'.
Proof.
  intros H. unfold delitem, copy_copy. cbn.
  destruct (col_pos name (columns df)) eqn:Hj; [eexists; reflexivity |].
  apply col_pos_None in Hj. contradiction.
Qed.

Lemma clean_raises_dered_r (df : DataFrame) :
  ~ In "dered_r" (columns df) -> clean df = inl (KeyError "dered_r").
Proof.
  intros H. apply col_pos_None in H. unfold clean, getitem. rewrite H. reflexivity.
Qed.

Lemma clean_raises_g_r_color (df : DataFrame) :
  In "dered_r" (columns df) -> ~ In "g_r_color" (columns df) ->
  clean df = inl (KeyError "g_r_color").
Proof.
  intros H1 H2. apply col_pos_None in H2.
  destruct (col_pos "dered_r" (columns df)) as [j |] eqn:Hj;
    [| apply col_pos_None in Hj; contradiction].
  unfold clean, getitem. rewrite Hj, H2. reflexivity.
Qed.

(** X14.  Cell 7, once the file is read: the first of [dered_r], [g_r_color] and
    [spec_z] that the table lacks is the [KeyError] the cell ends with,
    before anything is shown; with all three columns the cell goes on to
    show the first five rows of the features, and completes if that call
    does. *)
Theorem cell_7_misses_columns_in_order {world} (h : handler world) (w w1 : world)
    (raw : DataFrame) :
  h _ (ReadCsv qso_csv 0 regression_usecols) w = (ok raw, w1) ->
  let read := Called (ReadCsv qso_csv 0 regression_usecols) (ok raw) in
  let fails name := run h cell_7 w = ([read; Raised (KeyError name)], inl (KeyError name), w1) in
  (~ In "dered_r" (columns raw) -> fails "dered_r") /\
  (In "dered_r" (columns raw) -> ~ In "g_r_color" (columns raw) -> fails "g_r_color") /\
  (In "dered_r" (columns raw) -> In "g_r_color" (columns raw) ->
   ~ In "spec_z" (columns raw) -> fails "spec_z") /\
  (In "dered_r" (columns raw) -> In "g_r_color" (columns raw) ->
   In "spec_z" (columns raw) ->
   exists qsos qso_redshifts qso_features,
     clean raw = ok qsos /\ getitem qsos "spec_z" = ok qso_redshifts /\
     delitem (copy_copy qsos) "spec_z" = ok qso_features /\
     forall out w2,
       h _ (Display (VFrame (head_rows 5 qso_features))) w1 = (out, w2) ->
       run h cell_7 w
         = ([read; Called (Display (VFrame (head_rows 5 qso_features))) out],
            match out with
            | inl e => inl e
            | inr _ => ok (qsos, qso_redshifts, qso_features)
            end, w2)).
Proof.
  intros Hread. cbv zeta. unfold cell_7. cbn. rewrite Hread. cbn.
  split; [| split; [| split]].
  - intros H. rewrite (clean_raises_dered_r raw H). reflexivity.
  - intros H1 H2. rewrite (clean_raises_g_r_color raw H1 H2). reflexivity.
  - intros H1 H2 H3. destruct (clean_total raw H1 H2) as [qsos Hq]. rewrite Hq. cbn.
    apply clean_ok in Hq as [Hc _]. rewrite <- Hc in H3.
    rewrite (getitem_raises qsos "spec_z" H3). reflexivity.
  - intros H1 H2 H3. destruct (clean_total raw H1 H2) as [qsos Hq]. rewrite Hq. cbn.
    pose proof (clean_ok _ _ Hq) as [Hc _]. rewrite <- Hc in H3.
    destruct (getitem_total qsos "spec_z" H3) as [z Hz].
    destruct (delitem_copy_total qsos "spec_z" H3) as [f Hf].
    exists qsos, z, f. repeat (split; [first [reflexivity | assumption] |]).
    intros out w2 Hd. rewrite Hz. cbn. rewrite Hf. cbn. rewrite Hd.
    destruct out as [e | []]; reflexivity.
Qed.

Lemma cell_7_misses_columns_in_order_witness :
  run Sample.no_redshift cell_7 1%positive
  = ([Called (ReadCsv qso_csv 0 regression_usecols) (ok (Demo.catalog "class" (Str "QSO") 2));
      Raised (KeyError "spec_z")],
     inl (KeyError "spec_z"), 1%positive).
Proof.
  apply (cell_7_misses_columns_in_order Sample.no_redshift 1%positive 1%positive
           (Demo.catalog "class" (Str "QSO") 2)).
  - reflexivity.
  - vm_compute. auto 10.
  - vm_compute. auto 10.
  - vm_compute. intuition discriminate.
Defined.

Lemma in_columns_append (a b : DataFrame) (name : string) :
  In name (columns (append a b)) <-> In name (columns a) \/ In name (columns b).
Proof.
  unfold append, union_columns. cbn. rewrite in_app_iff, List.filter_In. split.
  - intros [H | [H _]]; auto.
  - intros [H | H]; [left; exact H |].
    destruct (col_pos name (columns a)) eqn:Hj.
    + left. eapply col_pos_In, Hj.
    + right. split; [exact H | reflexivity].
Qed.

Ltac outcome_51 :=
  split; [| split; [| split]];
  [ intros; first [reflexivity | exfalso; tauto] ..
  | split;
    [ intros [v Hv]; first [discriminate Hv | tauto]
    | first [tauto | intros _; eexists; reflexivity] ] ].

(** X15.  Cell 51, once the three files are read.  A column that one catalogue
    lacks is filled in (with NaN) from the header of another when the tables
    are appended, so the cell ends with a [KeyError] only for a column that
    none of the three has: the first such of [dered_r], [g_r_color] and
    [class]; it completes exactly when each of the three columns is in the
    header of some catalogue. *)
Theorem cell_51_misses_a_column_no_catalogue_has {world} (h : handler world)
    (w w1 w2 w3 : world) (qso star galaxy : DataFrame) :
  h _ (ReadCsv qso_csv' 0 classification_usecols) w = (ok qso, w1) ->
  h _ (ReadCsv star_csv 0 classification_usecols) w1 = (ok star, w2) ->
  h _ (ReadCsv galaxy_csv 0 classification_usecols) w2 = (ok galaxy, w3) ->
  let has name :=
    In name (columns qso) \/ In name (columns star) \/ In name (columns galaxy) in
  let outcome := (run h cell_51 w).1.2 in
  (~ has "dered_r" -> outcome = inl (KeyError "dered_r")) /\
  (has "dered_r" -> ~ has "g_r_color" -> outcome = inl (KeyError "g_r_color")) /\
  (has "dered_r" -> has "g_r_color" -> ~ has "class" -> outcome = inl (KeyError "class")) /\
  ((exists v, outcome = ok v) <-> has "dered_r" /\ has "g_r_color" /\ has "class").
Proof.
  intros Hq Hs Hg. cbv zeta. unfold cell_51. cbn. rewrite Hq. cbn. rewrite Hs. cbn.
  rewrite Hg. cbn.
  set (loaded := append (append (head_rows 1000 qso) star) galaxy).
  assert (forall name, In name (columns loaded) <->
            In name (columns qso) \/ In name (columns star) \/ In name (columns galaxy))
    as Hcols.
  { intros name. unfold loaded. rewrite !in_columns_append. cbn. tauto. }
  assert (forall name, In name (columns loaded) \/ ~ In name (columns loaded)) as Hdec.
  { intros name. destruct (List.in_dec String.string_dec name (columns loaded)); auto. }
  rewrite <- !Hcols.
  destruct (Hdec "dered_r") as [H1 | H1].
  2:{ rewrite (clean_raises_dered_r loaded H1). cbn.
      outcome_51. }
  destruct (Hdec "g_r_color") as [H2 | H2].
  2:{ rewrite (clean_raises_g_r_color loaded H1 H2). cbn.
      outcome_51. }
  destruct (clean_total loaded H1 H2) as [all_sources Ha]. rewrite Ha. cbn.
  pose proof (clean_ok _ _ Ha) as [Hc _].
  destruct (Hdec "class") as [H3 | H3].
  2:{ rewrite <- Hc in H3. rewrite (getitem_raises all_sources "class" H3). cbn.
      rewrite Hc in H3.
      outcome_51. }
  rewrite <- Hc in H3.
  destruct (getitem_total all_sources "class" H3) as [l Hl].
  destruct (delitem_copy_total all_sources "class" H3) as [f Hf].
  rewrite Hl. cbn. rewrite Hf. cbn. rewrite Hc in H3.
  outcome_51.
Qed.

Lemma cell_51_misses_a_column_no_catalogue_has_witness :
  exists v, (run Sample.short_files cell_51 1%positive).1.2 = ok v.
Proof.
  apply (cell_51_misses_a_column_no_catalogue_has Sample.short_files 1%positive 1%positive
           1%positive 1%positive (Demo.catalog "class" (Str "QSO") 2)
           (Demo.catalog "class" (Str "STAR") 2) (Demo.catalog "class" (Str "GALAXY") 2));
    try reflexivity.
  repeat split; vm_compute; auto 20.
Defined.

(** ** Cells 10 and 56: one colour per plotted row? *)






(** ** Cell 51: appending catalogues that have one header *)

Lemma realign_cells (cols : list string) :
  forall cells : list cell,
    NoDup cols -> length cells = length cols ->
    List.map (fun c => match col_pos c cols with
                       | Some j => nth j cells missing
                       | None => missing
                       end) cols = cells.
Proof.
  induction cols as [| a cols IH]; intros cells Hnd Hlen.
  - destruct cells; [reflexivity | discriminate].
  - destruct cells as [| x cells]; [discriminate |].
    apply NoDup_cons in Hnd as [Ha Hnd]. injection Hlen as Hlen.
    cbn [List.map col_pos]. rewrite String.eqb_refl. f_equal.
    etransitivity; [| apply (IH cells Hnd Hlen)].
    apply List.map_ext_in. intros c Hc.
    destruct (String.eqb a c) eqn:Hac.
    + apply String.eqb_eq in Hac. subst c. exfalso. apply Ha, list_elem_of_In, Hc.
    + destruct (col_pos c cols); reflexivity.
Qed.

Lemma realign_same (cols : list string) (r : Row) :
  NoDup cols -> length (snd r) = length cols -> realign cols cols r = r.
Proof.
  intros Hnd Hlen. destruct r as [i cells]. unfold realign, cell_at. cbn in *.
  f_equal. apply realign_cells; assumption.
Qed.

Lemma union_columns_same (cols : list string) : union_columns cols cols = cols.
Proof.
  unfold union_columns.
  assert (forall b, (forall c, In c b -> In c cols) ->
            List.filter (fun c => match col_pos c cols with
                                  | Some _ => false
                                  | None => true
                                  end) b = []) as H.
  { induction b as [| c b IH]; intros Hb; [reflexivity |]. cbn.
    destruct (col_pos c cols) eqn:Hc.
    - apply IH. intros c' Hc'. apply Hb. right. exact Hc'.
    - apply col_pos_None in Hc. exfalso. apply Hc, Hb. left. reflexivity. }
  rewrite H by auto. apply app_nil_r.
Qed.

(** Appending a table that has the same header (no column name twice, a
    cell in every column of every row) puts its rows after those of the
    first table and changes none. *)
Lemma append_same_header (a b : DataFrame) :
  columns b = columns a -> NoDup (columns a) ->
  Forall (fun r : Row => length (snd r) = length (columns a)) (rows a) ->
  Forall (fun r : Row => length (snd r) = length (columns a)) (rows b) ->
  append a b = mkDataFrame (columns a) (rows a ++ rows b).
Proof.
  intros Hb Hnd Ha Hrb. unfold append. rewrite Hb, union_columns_same. f_equal.
  f_equal; rewrite <- (List.map_id (rows _)) at 2; apply List.map_ext_in; intros r Hr;
    apply realign_same; try assumption;
    [rewrite List.Forall_forall in Ha; apply Ha, Hr
    | rewrite List.Forall_forall in Hrb; apply Hrb, Hr].
Qed.

(** X17.  Cell 51 on three catalogues that were read with one header (no column
    name twice, every row complete): when the cell completes, the cleaned
    table has that header, and its rows are the rows in range among the
    first 1000 quasar rows, then the star rows, then the galaxy rows, each
    as it was read. *)
Theorem cell_51_keeps_the_rows_as_read {world} (h : handler world) (w w1 w2 w3 w' : world)
    (qso star galaxy : DataFrame) (log : list entry) (all_sources : DataFrame)
    (all_labels : Series) (all_features : DataFrame) (X : matrix) (y : list cell) :
  h _ (ReadCsv qso_csv' 0 classification_usecols) w = (ok qso, w1) ->
  h _ (ReadCsv star_csv 0 classification_usecols) w1 = (ok star, w2) ->
  h _ (ReadCsv galaxy_csv 0 classification_usecols) w2 = (ok galaxy, w3) ->
  columns star = columns qso -> columns galaxy = columns qso ->
  NoDup (columns qso) ->
  Forall (fun r : Row => length (snd r) = length (columns qso))
    (rows qso ++ rows star ++ rows galaxy) ->
  run h cell_51 w = (log, ok (all_sources, all_labels, all_features, X, y), w') ->
  columns all_sources = columns qso /\
  rows all_sources
    = List.filter (keeps (columns qso)) (firstn 1000 (rows qso) ++ rows star ++ rows galaxy).
Proof.
  intros Hrq Hrs Hrg Hs Hg Hnd Hall H. unfold cell_51 in H. run_inv.
  match goal with Hq : (all_sources, _, _, _, _) = _ |- _ => injection Hq as -> _ _ _ _ end.
  repeat match goal with
         | Ha : h _ ?c ?v = (ok ?a, _), Hb : h _ ?c ?v = (ok ?b, _) |- _ =>
             rewrite Ha in Hb; injection Hb as <- <-
         end.
  apply Forall_app in Hall as [Hq Hall]. apply Forall_app in Hall as [Hst Hga].
  match goal with
  | Hcl : clean (append (append (head_rows 1000 ?q) ?s) ?g) = ok _ |- _ =>
      assert (append (append (head_rows 1000 q) s) g
              = mkDataFrame (columns q) ((firstn 1000 (rows q) ++ rows s) ++ rows g)) as E;
      [| rewrite E in Hcl; apply clean_ok in Hcl as [Hcols Hrows] ]
  end.
  - rewrite (append_same_header (head_rows 1000 _) _ Hs);
      [| exact Hnd | apply Forall_take; exact Hq | exact Hst].
    rewrite append_same_header; cbn [columns rows head_rows];
      [reflexivity | exact Hg | exact Hnd
      | apply Forall_app; split; [apply Forall_take; exact Hq | exact Hst]
      | exact Hga].
  - cbn [columns rows] in Hcols, Hrows. rewrite <- List.app_assoc in Hrows.
    split; assumption.
Qed.

Lemma cell_51_keeps_the_rows_as_read_witness :
  exists all_sources : DataFrame,
    columns all_sources = "class" :: Demo.feature_columns /\
    rows all_sources
      = firstn 2 (rows (Demo.catalog "class" (Str "QSO") 2))
        ++ firstn 2 (rows (Demo.catalog "class" (Str "STAR") 2))
        ++ firstn 2 (rows (Demo.catalog "class" (Str "GALAXY") 2)).
Proof.
  edestruct (fun log all_sources l f X y w' =>
               cell_51_keeps_the_rows_as_read Sample.short_files 1%positive 1%positive
                 1%positive 1%positive w' (Demo.catalog "class" (Str "QSO") 2)
                 (Demo.catalog "class" (Str "STAR") 2)
                 (Demo.catalog "class" (Str "GALAXY") 2) log all_sources l f X y)
    as [Hc Hr].
  1-5: reflexivity.
  - apply NoDup_ListNoDup. vm_compute. repeat constructor; cbn; intuition discriminate.
  - vm_compute. repeat constructor.
  - vm_compute. reflexivity.
  - eexists. split; [exact Hc |]. rewrite Hr. vm_compute. reflexivity.
Defined.

(** ** Cells 21, 24, 26 and 33: which numbers are set side by side *)

(** Takes a completed run of the regression pipeline apart, cell by cell. *)
Ltac regression_inv H :=
  unfold regression, compare_models, tune_knn in H; run_inv;
  repeat match goal with
  | H : run _ (cell_12 _ _) _ = _ |- _ => unfold cell_12, print in H; run_inv
  | H : run _ (cell_24 _ _ _) _ = _ |- _ => unfold cell_24 in H; run_inv
  | H : run _ (cell_26 _ _) _ = _ |- _ =>
      unfold cell_26, plot_validation_curve, plt in H; run_inv
  | H : run _ (cell_33 _ _ _ _ _) _ = _ |- _ => unfold cell_33, print in H; run_inv
  | H : run _ (cell_38 _ _ _) _ = _ |- _ => unfold cell_38 in H; run_inv
  | H : run _ (cell_15 _ _) _ = _ |- _ =>
      apply cell_15_ok in H as (? & ? & ? & ? & ? & -> & _)
  | H : run _ (cell_20 _ _) _ = _ |- _ => apply cell_20_ok in H as (? & ->)
  | H : run _ (cell_21 _ _ _ _ _) _ = _ |- _ => apply cell_21_ok in H as ->
  | H : run _ (cell_30 _) _ = _ |- _ => apply cell_30_ok in H as ->
  | H : run _ (cell_32 _ _ _) _ = _ |- _ => apply cell_32_ok in H as (? & ->)
  | H : (_, _) = (_, _) |- _ => injection H as ? ?
  end;
  subst;
  repeat match goal with u : unit |- _ => destruct u end.

(** X18.  The regression pipeline, when it runs to its end: the k-nearest-
    neighbours model and the tuned one are scored on the same test part (of
    the second split), and cell 33 prints the mean squared error of cell 21
    again beside that of the tuned model; the linear model was scored on the
    test part of the first split. *)
Theorem knn_and_tuned_knn_share_the_test_split {world} (h : handler world) (w w' : world)
    (log : list entry) :
  run h regression w = (log, ok tt, w') ->
  exists X y X_train0 X_test0 y_train0 y_test0 linear y_lr_pred mse
         X_scaled KNN X_train X_test y_train y_test
         y_knn_pred mse_knn r2_knn KNN_tuned y_knn_tuned_pred mse_knn_tuned r2_knn_tuned,
    sublist
      [Called (TrainTestSplit X y (Some 0.25)) (ok (X_train0, X_test0, y_train0, y_test0));
       Called (Predict linear X_test0) (ok y_lr_pred);
       Called (MeanSquaredError y_test0 y_lr_pred) (ok mse);
       Called (TrainTestSplit X_scaled y None) (ok (X_train, X_test, y_train, y_test));
       Called (Predict KNN X_test) (ok y_knn_pred);
       Called (MeanSquaredError y_test y_knn_pred) (ok mse_knn);
       Called (Score KNN X_test y_test) (ok r2_knn);
       Called (PyPrint [VStr "MSE (KNN) ="; VFloat mse_knn]) (ok tt);
       Called (GridSearchCV KNN param_grid None 3) (ok KNN_tuned);
       Called (Predict KNN_tuned X_test) (ok y_knn_tuned_pred);
       Called (MeanSquaredError y_test y_knn_tuned_pred) (ok mse_knn_tuned);
       Called (Score KNN_tuned X_test y_test) (ok r2_knn_tuned);
       Called (PyPrint [VStr "MSE (tuned KNN) ="; VFloat mse_knn_tuned]) (ok tt);
       Called (PyPrint [VStr "R2 score (tuned KNN) ="; VFloat r2_knn_tuned]) (ok tt);
       Called (PyPrint [VStr "cf."]) (ok tt);
       Called (PyPrint [VStr "MSE (KNN) = "; VFloat mse_knn]) (ok tt);
       Called (PyPrint [VStr "R2 score (KNN) ="; VFloat r2_knn]) (ok tt)]
      log.
Proof.
  intros H. regression_inv H.
  eexists _, _, _, _, _, _, _, _, _, _, _, _, _, _, _, _, _, _, _, _, _, _.
  repeat rewrite <- List.app_assoc. sublist_log.
Qed.

Lemma knn_and_tuned_knn_share_the_test_split_witness :
  exists (X_test : matrix) (y_test p1 p2 : list cell) (KNN KNN_tuned : obj) (m1 m2 : float),
    sublist
      [Called (Predict KNN X_test) (ok p1);
       Called (MeanSquaredError y_test p1) (ok m1);
       Called (Predict KNN_tuned X_test) (ok p2);
       Called (MeanSquaredError y_test p2) (ok m2)]
      (run Sample.short_regression regression 1%positive).1.1.
Proof.
  edestruct (fun log w' =>
               knn_and_tuned_knn_share_the_test_split Sample.short_regression 1%positive w' log)
    as (X & y & X_train0 & X_test0 & y_train0 & y_test0 & linear & y_lr_pred & mse
        & X_scaled & KNN & X_train & X_test & y_train & y_test & y_knn_pred & mse_knn
        & r2_knn & KNN_tuned & y_knn_tuned_pred & mse_knn_tuned & r2_knn_tuned & Hsub);
    [vm_compute; reflexivity |].
  exists X_test, y_test, y_knn_pred, y_knn_tuned_pred, KNN, KNN_tuned, mse_knn, mse_knn_tuned.
  match type of Hsub with sublist _ ?l =>
    replace ((run Sample.short_regression regression 1%positive).1.1) with l
      by (vm_compute; reflexivity)
  end.
  etrans; [| exact Hsub]. sublist_log.
Defined.


(** X19.  The regression pipeline, when it runs to its end: the scores that
    [validation_curve] returned for the seven numbers of neighbours (3
    folds, R2) are the ones [plot_validation_curve] draws, their means
    against the same seven numbers, on an axis labelled with the name of
    the parameter that was varied. *)
Theorem validation_scores_are_drawn_against_their_parameters {world} (h : handler world)
    (w w' : world) (log : list entry) :
  run h regression w = (log, ok tt, w') ->
  exists KNN X_scaled y training_scores validation_scores drawn1 drawn2 labelled,
    sublist
      [Called (ValidationCurve KNN X_scaled y "n_neighbors" param_range 3 "r2")
         (ok (training_scores, validation_scores));
       Called (LibCall "plt.plot"
                 [VTuple param_range; VFloats (List.map np_mean training_scores);
                  VStr "o-"; VKw "color" (VStr "r");
                  VKw "label" (VStr "Training R2 score")]) (ok drawn1);
       Called (LibCall "plt.plot"
                 [VTuple param_range; VFloats (List.map np_mean validation_scores);
                  VStr "o-"; VKw "color" (VStr "g");
                  VKw "label" (VStr "Cross-validation R2 score")]) (ok drawn2);
       Called (LibCall "plt.xlabel" [VStr "n_neighbors"; VKw "fontsize" (VInt 18)])
         (ok labelled)]
      log /\
    training_scores <> [] /\ validation_scores <> [].
Proof.
  intros H. regression_inv H.
  eexists _, _, _, _, _, _, _, _. split.
  - repeat rewrite <- List.app_assoc. sublist_log.
  - split; intros ->; match goal with
                      | Hm : np_min _ = ok _ |- _ => discriminate Hm
                      | Hm : np_max _ = ok _ |- _ => discriminate Hm
                      end.
Qed.

Lemma validation_scores_are_drawn_against_their_parameters_witness :
  exists (KNN : obj) (X_scaled : matrix) (y : list cell)
         (training_scores validation_scores : list (list float)) (drawn : pyval),
    sublist
      [Called (ValidationCurve KNN X_scaled y "n_neighbors" param_range 3 "r2")
         (ok (training_scores, validation_scores));
       Called (LibCall "plt.plot"
                 [VTuple param_range; VFloats (List.map np_mean validation_scores);
                  VStr "o-"; VKw "color" (VStr "g");
                  VKw "label" (VStr "Cross-validation R2 score")]) (ok drawn)]
      (run Sample.short_regression regression 1%positive).1.1.
Proof.
  edestruct (fun log w' =>
               validation_scores_are_drawn_against_their_parameters Sample.short_regression
                 1%positive w' log)
    as (KNN & X_scaled & y & tr & va & d1 & d2 & lab & Hsub & _);
    [vm_compute; reflexivity |].
  exists KNN, X_scaled, y, tr, va, d2.
  match type of Hsub with sublist _ ?l =>
    replace ((run Sample.short_regression regression 1%positive).1.1) with l
      by (vm_compute; reflexivity)
  end.
  etrans; [| exact Hsub]. sublist_log.
Defined.

(** ** More of what the two pipelines need and show *)

(** X20.  The regression pipeline completes only on a second split whose
    test part has more than 571 rows and redshifts: cell 43 reads position
    571 of both. *)
Theorem regression_needs_572_test_rows {world} (h : handler world) (w w' : world)
    (log : list entry) :
  run h regression w = (log, ok tt, w') ->
  exists X_scaled y X_train X_test y_train y_test,
    In (Called (TrainTestSplit X_scaled y None) (ok (X_train, X_test, y_train, y_test))) log /\
    (571 < length X_test)%nat /\ (571 < length y_test)%nat.
Proof.
  intros H. regression_inv H.
  match goal with H : run _ (cell_43 _ _ _) _ = _ |- _ =>
    unfold cell_43, print in H; run_inv end.
  repeat match goal with Hi : item _ _ = ok _ |- _ => apply item_ok in Hi end.
  eexists _, _, _, _, _, _. split; [| split].
  - rewrite ?in_app_iff. cbn. rewrite ?in_app_iff. cbn. auto 20.
  - apply nth_error_Some. congruence.
  - apply nth_error_Some. congruence.
Qed.

Lemma regression_needs_572_test_rows_witness :
  exists (X_test : matrix) (y_test : list cell),
    (571 < length X_test)%nat /\ (571 < length y_test)%nat.
Proof.
  edestruct (fun log w' =>
               regression_needs_572_test_rows Sample.short_regression 1%positive w' log)
    as (X_scaled & y & X_train & X_test & y_train & y_test & Hin & HX & Hy);
    [vm_compute; reflexivity |].
  exists X_test, y_test. split; [exact HX | exact Hy].
Defined.

(** X21.  The classification pipeline, when it runs to its end: the number
    printed as 'Best OOB score:' is the [best_score_] of the fitted grid
    search (the score of its 3-fold cross-validation), while the out-of-bag
    score that cell 62 shows is the [oob_score_] of the first forest, the one
    fitted on all rows. *)
Theorem best_oob_score_is_the_best_score_of_the_search {world} (h : handler world)
    (w w' : world) (log : list entry) :
  run h classification w = (log, ok tt, w') ->
  exists log51 w51 all_sources all_labels all_features X y
         rf fitted_all oob X_train y_train rf_tuned RFselector best_score,
    run h cell_51 w = (log51, ok (all_sources, all_labels, all_features, X, y), w51) /\
    sublist
      [Called (Construct "RandomForestClassifier"
                 [VKw "n_estimators" (VInt 100); VKw "oob_score" (VBool true)]) (ok rf);
       Called (Fit rf X y) (ok fitted_all);
       Called (GetAttr rf "oob_score_") (ok oob);
       Called (Display oob) (ok tt);
       Called (GridSearchCV rf parameters (Some 3%Z) 1) (ok rf_tuned);
       Called (Fit rf_tuned X_train y_train) (ok RFselector);
       Called (GetAttr RFselector "best_score_") (ok best_score);
       Called (PyPrint [VStr "Best OOB score:"; best_score]) (ok tt)]
      log.
Proof.
  intros H.
  unfold classification, cell_58, cell_60, cell_62, cell_65, cell_66, cell_69, cell_75,
    cell_76, print, plt in H.
  run_inv.
  repeat match goal with H : (_, _) = (_, _) |- _ => injection H as ? ? end.
  subst.
  repeat match goal with u : unit |- _ => destruct u end.
  match goal with H : run _ cell_51 _ = _ |- _ =>
    eexists _, _, _, _, _, _, _, _, _, _, _, _, _, _, _; split; [exact H |]
  end.
  repeat rewrite <- List.app_assoc. sublist_log.
Qed.

Lemma best_oob_score_is_the_best_score_of_the_search_witness :
  exists (rf_tuned RFselector : obj) (X_train : matrix) (y_train : list cell)
         (best_score : pyval),
    sublist
      [Called (Fit rf_tuned X_train y_train) (ok RFselector);
       Called (GetAttr RFselector "best_score_") (ok best_score);
       Called (PyPrint [VStr "Best OOB score:"; best_score]) (ok tt)]
      (run Sample.short_files classification 1%positive).1.1.
Proof.
  edestruct (fun log w' =>
               best_oob_score_is_the_best_score_of_the_search Sample.short_files 1%positive
                 w' log)
    as (log51 & w51 & all_sources & all_labels & all_features & X & y & rf & fitted_all
        & oob & X_train & y_train & rf_tuned & RFselector & best_score & _ & Hsub);
    [vm_compute; reflexivity |].
  exists rf_tuned, RFselector, X_train, y_train, best_score.
  match type of Hsub with sublist _ ?l =>
    replace ((run Sample.short_files classification 1%positive).1.1) with l
      by (vm_compute; reflexivity)
  end.
  etrans; [| exact Hsub]. sublist_log.
Defined.

(** X22.  Cells 15 to 22, when they run to their end: the title of the
    first scatter plot shows, as 'MSE', the square root of the linear
    model's mean squared error, and the title of the second shows the mean
    squared error of the k-nearest-neighbours model as it is; each plot sets
    the predictions against the test redshifts they were made for. *)
Theorem plot_titles_show_two_different_measures {world} (h : handler world) (w w' : world)
    (X : matrix) (y : list cell) (log : list entry)
    (r : matrix * obj * matrix * matrix * list cell * list cell * float * float) :
  run h (compare_models X y) w = (log, ok r, w') ->
  exists y_test y_lr_pred mse y_test' y_knn_pred mse_knn drawn1 titled1 drawn2 titled2,
    sublist
      [Called (MeanSquaredError y_test y_lr_pred) (ok mse);
       Called (LibCall "plot" [VArray y_test; VArray y_lr_pred; VStr "o";
                               VKw "alpha" (VFloat 0.2)]) (ok drawn1);
       Called (LibCall "title"
                 [VFormat "Linear Regression - MSE = %.2f" [VFloat (np_sqrt mse)];
                  VKw "fontsize" (VInt 18)]) (ok titled1);
       Called (MeanSquaredError y_test' y_knn_pred) (ok mse_knn);
       Called (LibCall "plot" [VArray y_test'; VArray y_knn_pred; VStr "o";
                               VKw "alpha" (VFloat 0.2)]) (ok drawn2);
       Called (LibCall "title"
                 [VFormat "k-NN Residuals - MSE = %.2f" [VFloat mse_knn];
                  VKw "fontsize" (VInt 18)]) (ok titled2)]
      log.
Proof.
  intros H. unfold compare_models in H. run_inv.
  repeat match goal with
  | H : run _ (cell_15 _ _) _ = _ |- _ =>
      apply cell_15_ok in H as (? & ? & ? & ? & ? & -> & ->)
  | H : run _ (cell_20 _ _) _ = _ |- _ => apply cell_20_ok in H as (? & ->)
  | H : run _ (cell_21 _ _ _ _ _) _ = _ |- _ => apply cell_21_ok in H as ->
  | H : run _ (cell_16 _ _ _) _ = _ |- _ =>
      unfold cell_16, redshift_plot, plt in H; run_inv
  | H : run _ (cell_22 _ _ _) _ = _ |- _ =>
      unfold cell_22, redshift_plot, plt in H; run_inv
  | H : (_, _) = (_, _) |- _ => injection H as ? ?
  end.
  subst.
  repeat match goal with u : unit |- _ => destruct u end.
  eexists _, _, _, _, _, _, _, _, _, _.
  repeat rewrite <- List.app_assoc. sublist_log.
Qed.

Lemma plot_titles_show_two_different_measures_witness :
  exists (mse mse_knn : float) (titled1 titled2 : pyval),
    sublist
      [Called (LibCall "title"
                 [VFormat "Linear Regression - MSE = %.2f" [VFloat (np_sqrt mse)];
                  VKw "fontsize" (VInt 18)]) (ok titled1);
       Called (LibCall "title"
                 [VFormat "k-NN Residuals - MSE = %.2f" [VFloat mse_knn];
                  VKw "fontsize" (VInt 18)]) (ok titled2)]
      (run Demo.libraries (compare_models [[Num 1]] [Num 3]) 1%positive).1.1.
Proof.
  edestruct (fun log r w' =>
               plot_titles_show_two_different_measures Demo.libraries 1%positive w'
                 [[Num 1]] [Num 3] log r)
    as (y_test & y_lr_pred & mse & y_test' & y_knn_pred & mse_knn & d1 & t1 & d2 & t2 & Hsub);
    [vm_compute; reflexivity |].
  exists mse, mse_knn, t1, t2.
  match type of Hsub with sublist _ ?l =>
    replace ((run Demo.libraries (compare_models [[Num 1]] [Num 3]) 1%positive).1.1) with l
      by (vm_compute; reflexivity)
  end.
  etrans; [| exact Hsub]. sublist_log.
Defined.
